(** * Peakmails SDK: request signing and dispatch

    A shallow embedding of the two client variants of the repository,
    [src/unnamed/part_000] (the signed, project-scoped client) and
    [src/index.js] (the unsigned client), together with the parts of
    JavaScript and of Node's [crypto] module that they rely on. *)

From Stdlib Require Import ZArith List String Ascii Bool Lia DecimalString.
Import ListNotations.
Local Open Scope string_scope.
Set Warnings "-register-all".

(** ** JavaScript values

    The values that flow through the SDK are JSON-like: the configuration
    object, the operation arguments, the request payload, the response body
    and the error object that axios rejects with.  Numbers are restricted to
    the integers (status codes, page numbers); objects are association lists
    in insertion order, the first binding of a key being the visible one. *)

Inductive JsVal : Type :=
| JUndefined
| JNull
| JBool (b : bool)
| JNum (n : Z)
| JStr (s : string)
| JArr (items : list JsVal)
| JObj (fields : list (string * JsVal)).

(** What is thrown: [new Error(message)] by the SDK itself, or the
    [TypeError] the engine raises when a property of [null] or [undefined]
    is read (its message text is engine specific and is not modelled). *)
Inductive Thrown : Type :=
| Error (message : string)
| TypeError.

(** Outcome of running a piece of code: a value, or an exception.  For an
    [async] method this is the settlement of the promise it returns:
    [Normal v] is a promise fulfilled with [v], [Throw e] a promise rejected
    with [e]. *)
Inductive Completion (A : Type) : Type :=
| Normal (a : A)
| Throw (e : Thrown).
Arguments Normal {A} a.
Arguments Throw {A} e.

Module Js.

(** ToBoolean. *)
Definition truthy (v : JsVal) : bool :=
  match v with
  | JUndefined | JNull => false
  | JBool b => b
  | JNum n => negb (n =? 0)%Z
  | JStr s => negb (s =? "")
  | JArr _ | JObj _ => true
  end.

(** The [typeof] operator. *)
Definition typeof (v : JsVal) : string :=
  match v with
  | JUndefined => "undefined"
  | JNull => "object"
  | JBool _ => "boolean"
  | JNum _ => "number"
  | JStr _ => "string"
  | JArr _ | JObj _ => "object"
  end.

Definition isArray (v : JsVal) : bool :=
  match v with JArr _ => true | _ => false end.

Fixpoint lookup (key : string) (fields : list (string * JsVal)) : JsVal :=
  match fields with
  | [] => JUndefined
  | (k, v) :: rest => if k =? key then v else lookup key rest
  end.

(** [null] and [undefined] have no properties at all. *)
Definition nullish (v : JsVal) : bool :=
  match v with
  | JUndefined | JNull => true
  | _ => false
  end.

(** The own properties of a value: those of an object, none otherwise. *)
Definition fields_of (v : JsVal) : list (string * JsVal) :=
  match v with
  | JObj fields => fields
  | _ => []
  end.

(** Property read [v.key], for the property names the SDK reads
    (apiKey, domain, projectId, secretKey, location, origin, email,
    categories, scenario, response, request, status, data, message): none
    of them is defined on a primitive or on an array, so only an object
    can answer with something else than [undefined]; reading a property
    of [null] or [undefined] raises a [TypeError]. *)
Definition get (v : JsVal) (key : string) : Completion JsVal :=
  if nullish v then Throw TypeError
  else Normal (lookup key (fields_of v)).

Definition decimal (n : Z) : string := NilZero.string_of_int (Z.to_int n).

(** ToString, as a template literal applies it.  The decimal rendering of
    a number is the one of JavaScript below 10^21 in magnitude. *)
Fixpoint toString (v : JsVal) : string :=
  match v with
  | JUndefined => "undefined"
  | JNull => "null"
  | JBool b => if b then "true" else "false"
  | JNum n => decimal n
  | JStr s => s
  | JArr items =>
      (fix join (l : list JsVal) : string :=
         match l with
         | [] => ""
         | x :: rest =>
             let here := match x with
                         | JUndefined | JNull => ""
                         | _ => toString x
                         end in
             match rest with
             | [] => here
             | _ :: _ => here ++ "," ++ join rest
             end
         end) items
  | JObj _ => "[object Object]"
  end.

End Js.

(** ** Sequencing of code that may throw *)

Definition bindC {A B : Type} (c : Completion A) (k : A -> Completion B)
  : Completion B :=
  match c with
  | Normal a => k a
  | Throw e => Throw e
  end.

Declare Scope js_scope.
Delimit Scope js_scope with js.
Notation "'let*' x ':=' c 'in' k" := (bindC c (fun x => k))
  (at level 10, x name, c at level 100, k at level 200) : js_scope.
Local Open Scope js_scope.

(** ** SHA-256 (FIPS 180-4), as [crypto.createHash('sha256')] computes it

    Words are 32-bit integers carried in [Z] with the wrap-around written
    out; a string is hashed as the sequence of its bytes. *)

Module SHA256.
Local Open Scope Z_scope.

Definition wrap (x : Z) : Z := x mod 2 ^ 32.
Definition add (x y : Z) : Z := wrap (x + y).
Definition rotr (n x : Z) : Z :=
  wrap (Z.lor (Z.shiftr x n) (Z.shiftl x (32 - n))).
Definition shr (n x : Z) : Z := Z.shiftr x n.
Definition lnot32 (x : Z) : Z := 2 ^ 32 - 1 - x.

Definition Ch (x y z : Z) : Z :=
  Z.lxor (Z.land x y) (Z.land (lnot32 x) z).
Definition Maj (x y z : Z) : Z :=
  Z.lxor (Z.lxor (Z.land x y) (Z.land x z)) (Z.land y z).
Definition bsig0 (x : Z) : Z :=
  Z.lxor (Z.lxor (rotr 2 x) (rotr 13 x)) (rotr 22 x).
Definition bsig1 (x : Z) : Z :=
  Z.lxor (Z.lxor (rotr 6 x) (rotr 11 x)) (rotr 25 x).
Definition ssig0 (x : Z) : Z :=
  Z.lxor (Z.lxor (rotr 7 x) (rotr 18 x)) (shr 3 x).
Definition ssig1 (x : Z) : Z :=
  Z.lxor (Z.lxor (rotr 17 x) (rotr 19 x)) (shr 10 x).

(** The constants are derived the way the standard defines them: the
    first 32 bits of the fractional parts of the square roots (initial
    hash value) and cube roots (round constants) of the first primes. *)
Definition is_prime (n : Z) : bool :=
  (1 <? n) &&
  forallb (fun d => negb (n mod d =? 0))
          (map Z.of_nat (seq 2 (Z.to_nat (Z.sqrt n) - 1))).

Definition primes : list Z :=
  Eval vm_compute in filter is_prime (map Z.of_nat (seq 2 310)).

(** Integer cube root by bisection: the largest [r] in [lo, hi) with
    [r^3 <= n]. *)
Fixpoint cbrt_between (fuel : nat) (lo hi n : Z) : Z :=
  match fuel with
  | O => lo
  | S fuel' =>
      if hi - lo <=? 1 then lo
      else let mid := (lo + hi) / 2 in
           if mid * mid * mid <=? n then cbrt_between fuel' mid hi n
           else cbrt_between fuel' lo mid n
  end.

Definition frac_sqrt (p : Z) : Z := wrap (Z.sqrt (p * 2 ^ 64)).
Definition frac_cbrt (p : Z) : Z :=
  wrap (cbrt_between 64 0 (2 ^ 36) (p * 2 ^ 96)).

Definition H0 : list Z := Eval vm_compute in map frac_sqrt (firstn 8 primes).
Definition K : list Z := Eval vm_compute in map frac_cbrt (firstn 64 primes).

(** Padding: a 1 bit, zeros up to 56 modulo 64 bytes, then the length of
    the message in bits as a 64-bit big-endian integer. *)
Definition be_bytes (count : nat) (x : Z) : list Z :=
  map (fun i => (Z.shiftr x (8 * Z.of_nat i)) mod 256) (rev (seq 0 count)).

Definition pad (msg : list Z) : list Z :=
  let len := Z.of_nat (List.length msg) in
  let zeros := Z.to_nat ((55 - len) mod 64) in
  (msg ++ [128] ++ repeat 0 zeros ++ be_bytes 8 (8 * len))%list.

Fixpoint be_words (fuel : nat) (bytes : list Z) : list Z :=
  match fuel, bytes with
  | S fuel', b3 :: b2 :: b1 :: b0 :: rest =>
      (((b3 * 256 + b2) * 256 + b1) * 256 + b0) :: be_words fuel' rest
  | _, _ => []
  end.

Fixpoint blocks (fuel : nat) (words : list Z) : list (list Z) :=
  match fuel, words with
  | S fuel', _ :: _ => firstn 16 words :: blocks fuel' (skipn 16 words)
  | _, _ => []
  end.

(** Message schedule, most recent word first. *)
Fixpoint extend (count : nat) (ws : list Z) : list Z :=
  match count with
  | O => ws
  | S count' =>
      let w := add (add (ssig1 (nth 1 ws 0)) (nth 6 ws 0))
                   (add (ssig0 (nth 14 ws 0)) (nth 15 ws 0)) in
      extend count' (w :: ws)
  end.

Definition schedule (block : list Z) : list Z :=
  rev (extend 48 (rev block)).

Record State : Type :=
  mkState { a : Z; b : Z; c : Z; d : Z; e : Z; f : Z; g : Z; h : Z }.

Definition round (s : State) (kw : Z * Z) : State :=
  let t1 := add (add (add (h s) (bsig1 (e s))) (Ch (e s) (f s) (g s)))
                (add (fst kw) (snd kw)) in
  let t2 := add (bsig0 (a s)) (Maj (a s) (b s) (c s)) in
  mkState (add t1 t2) (a s) (b s) (c s) (add (d s) t1) (e s) (f s) (g s).

Definition compress (s : State) (block : list Z) : State :=
  let r := fold_left round (combine K (schedule block)) s in
  mkState (add (a s) (a r)) (add (b s) (b r)) (add (c s) (c r))
          (add (d s) (d r)) (add (e s) (e r)) (add (f s) (f r))
          (add (g s) (g r)) (add (h s) (h r)).

Definition init : State :=
  mkState (nth 0 H0 0) (nth 1 H0 0) (nth 2 H0 0) (nth 3 H0 0)
          (nth 4 H0 0) (nth 5 H0 0) (nth 6 H0 0) (nth 7 H0 0).

Definition digest (msg : list Z) : list Z :=
  let padded := pad msg in
  let words := be_words (List.length padded) padded in
  let s := fold_left compress (blocks (List.length words) words) init in
  flat_map (be_bytes 4) [a s; b s; c s; d s; e s; f s; g s; h s].

Definition hex_digit (x : Z) : ascii :=
  if x <? 10 then ascii_of_nat (Z.to_nat (48 + x))
  else ascii_of_nat (Z.to_nat (87 + x)).

Fixpoint hex (bytes : list Z) : string :=
  match bytes with
  | [] => EmptyString
  | x :: rest =>
      String (hex_digit (x / 16)) (String (hex_digit (x mod 16)) (hex rest))
  end.

Definition bytes_of_string (s : string) : list Z :=
  map (fun ch => Z.of_nat (nat_of_ascii ch)) (list_ascii_of_string s).

(** [crypto.createHash('sha256').update(s).digest('hex')] *)
Definition sha256_hex (s : string) : string := hex (digest (bytes_of_string s)).

End SHA256.

(** A string of lower-case hexadecimal digits. *)
Definition is_hex_char (ch : ascii) : bool :=
  let n := nat_of_ascii ch in
  (Nat.leb 48 n && Nat.leb n 57) || (Nat.leb 97 n && Nat.leb n 102).

Fixpoint all_hex (s : string) : bool :=
  match s with
  | EmptyString => true
  | String ch rest => is_hex_char ch && all_hex rest
  end.

(** ** The HTTP transport

    [axios(config)] is the only effect of the SDK.  A call hands one request
    to the transport and settles with a response or with an error object; the
    requests handed over so far are kept, oldest first, so that "no request
    is issued" can be stated. *)

Record AxiosConfig : Type := mkConfig {
  method : string;
  url : string;
  headers : list (string * JsVal);
  data : JsVal
}.

Record AxiosResponse : Type := mkResponse {
  response_status : Z;
  response_data : JsVal
}.

Inductive AxiosOutcome : Type :=
| Resolve (response : AxiosResponse)
| Reject (error : JsVal).

Definition Sent : Type := list AxiosConfig.

(** The body of an [async] method: it runs against the requests sent so far
    and settles. *)
Definition Async (A : Type) : Type := Sent -> Completion A * Sent.

Definition lift {A : Type} (c : Completion A) : Async A := fun sent => (c, sent).
Definition throw {A : Type} (e : Thrown) : Async A := lift (Throw e).

Definition bindA {A B : Type} (m : Async A) (k : A -> Async B) : Async B :=
  fun sent =>
    match m sent with
    | (Normal a, sent') => k a sent'
    | (Throw e, sent') => (Throw e, sent')
    end.

Notation "x <- m ;; k" := (bindA m (fun x => k))
  (at level 61, m at next level, right associativity) : js_scope.

(** [!v || typeof v !== 'string'], the test every string argument goes
    through. *)
Definition not_a_string (v : JsVal) : bool :=
  negb (Js.truthy v) || negb (Js.typeof v =? "string").

(** [!Array.isArray(v) || v.length === 0] *)
Definition not_a_list (v : JsVal) : bool :=
  negb (Js.isArray v) ||
  match v with
  | JArr items => Nat.eqb (List.length items) 0
  | _ => false
  end.

(** [data = {}]: the default of the third parameter of [request]. *)
Definition default_data (data : JsVal) : JsVal :=
  match data with
  | JUndefined => JObj []
  | _ => data
  end.

(** The [catch] block of [request], the same text in both files
    ([src/unnamed/part_000] lines 73-81, [src/index.js] lines 42-50). *)
Definition rethrow (error : JsVal) : Completion JsVal :=
  let* response := Js.get error "response" in
  if Js.truthy response then
    let* status := Js.get response "status" in
    let* body := Js.get response "data" in
    let* message := Js.get body "message" in
    Throw (Error ("Peakmails API Error: " ++ Js.toString status ++ " - "
                  ++ Js.toString message))
  else
    let* request := Js.get error "request" in
    if Js.truthy request then
      Throw (Error "Peakmails API Error: No response received from the server")
    else
      let* message := Js.get error "message" in
      Throw (Error ("Peakmails SDK Error: " ++ Js.toString message)).

(** [try { const response = await axios(config); return response.data; }
     catch (error) { ... }] *)
Definition dispatch (axios : AxiosConfig -> AxiosOutcome) (config : AxiosConfig)
  : Async JsVal :=
  fun sent =>
    (match axios config with
     | Resolve response => Normal (response_data response)
     | Reject error => rethrow error
     end, (sent ++ [config])%list).

(** ** The signed client, [src/unnamed/part_000] *)

Module Signed.

Record PeakmailsSDK : Type := mkSDK {
  apiKey : JsVal;
  domain : JsVal;
  projectId : JsVal;
  baseUrl : string;
  secretKey : JsVal
}.

Definition constructor (options : JsVal) : Completion PeakmailsSDK :=
  let* apiKey := Js.get options "apiKey" in
  let* domain := Js.get options "domain" in
  let* projectId := Js.get options "projectId" in
  let* secretKey := Js.get options "secretKey" in
  if not_a_string apiKey then Throw (Error "Invalid API key")
  else if not_a_string domain then Throw (Error "Invalid domain")
  else if not_a_string projectId then Throw (Error "Invalid project ID")
  else Normal {| apiKey := apiKey;
                 domain := domain;
                 projectId := projectId;
                 baseUrl := "https://peakmails.com/api/v1";
                 secretKey := secretKey |}.

Definition generateCSRFToken (this : PeakmailsSDK) (origin : JsVal) : string :=
  SHA256.sha256_hex (Js.toString (apiKey this) ++ Js.toString origin).

Section Environment.

(** The global [window]; [JUndefined] where there is none. *)
Variable window : JsVal.
(** The transport behind [axios]. *)
Variable axios : AxiosConfig -> AxiosOutcome.

Definition getOrigin : Completion JsVal :=
  if negb (Js.typeof window =? "undefined") then
    let* location := Js.get window "location" in
    if Js.truthy location then Js.get location "origin"
    else Normal JNull
  else Normal JNull.

(** Lines 46-51 of [request]. *)
Definition resolveOrigin (this : PeakmailsSDK) : Completion JsVal :=
  if Js.truthy (secretKey this) then Normal (JStr "backend-implementation")
  else getOrigin.

(** The argument of the [axios] call, lines 59-71 of [request]. *)
Definition envelope (this : PeakmailsSDK) (method endpoint : string)
           (data origin : JsVal) (csrfToken : string) : AxiosConfig :=
  {| method := method;
     url := baseUrl this ++ endpoint;
     headers :=
       [ ("Authorization", JStr ("Bearer " ++ Js.toString (apiKey this)));
         ("Content-Type", JStr "application/json");
         ("X-Peakmails-Domain", domain this);
         ("X-Peakmails-Project", projectId this);
         ("X-Peakmails-Origin", origin);
         ("X-Peakmails-CSRF-Token", JStr csrfToken) ];
     data := data |}.

Definition request (this : PeakmailsSDK) (method endpoint : string)
           (data : JsVal) : Async JsVal :=
  let data := default_data data in
  origin <- lift (resolveOrigin this) ;;
  if negb (Js.truthy origin) then throw (Error "Origin not found")
  else
    let csrfToken := generateCSRFToken this origin in
    dispatch axios (envelope this method endpoint data origin csrfToken).

Definition addContact (this : PeakmailsSDK) (contactData : JsVal)
  : Async JsVal :=
  email <- lift (Js.get contactData "email") ;;
  if not_a_string email then throw (Error "Invalid email address")
  else request this "POST" "/add-contact" contactData.

Definition addContactToCategories (this : PeakmailsSDK) (arg : JsVal)
  : Async JsVal :=
  email <- lift (Js.get arg "email") ;;
  categories <- lift (Js.get arg "categories") ;;
  if not_a_string email then throw (Error "Invalid email address")
  else if not_a_list categories then throw (Error "Invalid category IDs")
  else request this "POST" "/add-contact-to-category"
               (JObj [("email", email); ("categories", categories)]).

Definition triggerScenario (this : PeakmailsSDK) (arg : JsVal)
  : Async JsVal :=
  scenario <- lift (Js.get arg "scenario") ;;
  email <- lift (Js.get arg "email") ;;
  if not_a_string scenario then throw (Error "Invalid scenario ID")
  else if not_a_string email then throw (Error "Invalid email address")
  else request this "POST" "/trigger-scenario"
               (JObj [("scenario", scenario); ("email", email)]).

Definition getScenarioCustomFields (this : PeakmailsSDK) (arg : JsVal)
  : Async JsVal :=
  scenario <- lift (Js.get arg "scenario") ;;
  if not_a_string scenario then throw (Error "Invalid scenario ID")
  else request this "GET"
               ("/get-scenario-custom-fields?scenario=" ++ Js.toString scenario)
               JUndefined.

(** The public surface, as [src/index.d.ts] declares it: four methods of
    one argument each. *)
Inductive Operation : Type :=
| AddContact
| AddContactToCategories
| TriggerScenario
| GetScenarioCustomFields.

Definition invoke (this : PeakmailsSDK) (op : Operation) (arg : JsVal)
  : Async JsVal :=
  match op with
  | AddContact => addContact this arg
  | AddContactToCategories => addContactToCategories this arg
  | TriggerScenario => triggerScenario this arg
  | GetScenarioCustomFields => getScenarioCustomFields this arg
  end.

End Environment.

End Signed.

(** ** The unsigned client, [src/index.js] *)

Module Unsigned.

Record PeakmailsSDK : Type := mkSDK {
  apiKey : JsVal;
  domain : JsVal;
  baseUrl : string
}.

Definition constructor (options : JsVal) : Completion PeakmailsSDK :=
  let* apiKey := Js.get options "apiKey" in
  let* domain := Js.get options "domain" in
  if not_a_string apiKey then Throw (Error "Invalid API key")
  else if not_a_string domain then Throw (Error "Invalid domain")
  else Normal {| apiKey := apiKey;
                 domain := domain;
                 baseUrl := "https://api.peakmails.com/v1" |}.

Section Environment.

(** The transport behind [axios]. *)
Variable axios : AxiosConfig -> AxiosOutcome.
(** [new URLSearchParams(options).toString()], of the platform. *)
Variable URLSearchParams : JsVal -> Completion string.

(** The argument of the [axios] call, lines 31-40 of [request]. *)
Definition envelope (this : PeakmailsSDK) (method endpoint : string)
           (data : JsVal) : AxiosConfig :=
  {| method := method;
     url := baseUrl this ++ endpoint;
     headers :=
       [ ("Authorization", JStr ("Bearer " ++ Js.toString (apiKey this)));
         ("Content-Type", JStr "application/json");
         ("X-Peakmails-Domain", domain this) ];
     data := data |}.

Definition request (this : PeakmailsSDK) (method endpoint : string)
           (data : JsVal) : Async JsVal :=
  let data := default_data data in
  dispatch axios (envelope this method endpoint data).

Definition addContact (this : PeakmailsSDK) (contactData : JsVal)
  : Async JsVal :=
  email <- lift (Js.get contactData "email") ;;
  if not_a_string email then throw (Error "Invalid email address")
  else request this "POST" "/contacts" contactData.

Definition addContactToCategories (this : PeakmailsSDK)
           (contactId categoryIds : JsVal) : Async JsVal :=
  if not_a_string contactId then throw (Error "Invalid contact ID")
  else if not_a_list categoryIds then throw (Error "Invalid category IDs")
  else request this "POST"
               ("/contacts/" ++ Js.toString contactId ++ "/categories")
               (JObj [("categoryIds", categoryIds)]).

Definition triggerScenario (this : PeakmailsSDK)
           (scenarioId contactId : JsVal) : Async JsVal :=
  if not_a_string scenarioId then throw (Error "Invalid scenario ID")
  else if not_a_string contactId then throw (Error "Invalid contact ID")
  else request this "POST"
               ("/scenarios/" ++ Js.toString scenarioId ++ "/trigger")
               (JObj [("contactId", contactId)]).

(** [`/scenarios${queryParams ? `?${queryParams}` : ''}`] and its twin
    for the categories. *)
Definition with_query (path queryParams : string) : string :=
  path ++ (if negb (queryParams =? "") then "?" ++ queryParams else "").

Definition getScenarios (this : PeakmailsSDK) (options : JsVal)
  : Async JsVal :=
  let options := default_data options in
  queryParams <- lift (URLSearchParams options) ;;
  request this "GET" (with_query "/scenarios" queryParams) JUndefined.

Definition getScenarioCustomFields (this : PeakmailsSDK)
           (scenarioId : JsVal) : Async JsVal :=
  if not_a_string scenarioId then throw (Error "Invalid scenario ID")
  else request this "GET"
               ("/scenarios/" ++ Js.toString scenarioId ++ "/custom-fields")
               JUndefined.

Definition getCategories (this : PeakmailsSDK) (options : JsVal)
  : Async JsVal :=
  let options := default_data options in
  queryParams <- lift (URLSearchParams options) ;;
  request this "GET" (with_query "/categories" queryParams) JUndefined.

Definition getContactDetails (this : PeakmailsSDK) (contactId : JsVal)
  : Async JsVal :=
  if not_a_string contactId then throw (Error "Invalid contact ID")
  else request this "GET" ("/contacts/" ++ Js.toString contactId)
               JUndefined.

(** The seven public methods; an argument that the caller leaves out is
    [undefined]. *)
Inductive Operation : Type :=
| AddContact
| AddContactToCategories
| TriggerScenario
| GetScenarios
| GetScenarioCustomFields
| GetCategories
| GetContactDetails.

Definition invoke (this : PeakmailsSDK) (op : Operation)
           (args : list JsVal) : Async JsVal :=
  let arg0 := nth 0 args JUndefined in
  let arg1 := nth 1 args JUndefined in
  match op with
  | AddContact => addContact this arg0
  | AddContactToCategories => addContactToCategories this arg0 arg1
  | TriggerScenario => triggerScenario this arg0 arg1
  | GetScenarios => getScenarios this arg0
  | GetScenarioCustomFields => getScenarioCustomFields this arg0
  | GetCategories => getCategories this arg0
  | GetContactDetails => getContactDetails this arg0
  end.

End Environment.

End Unsigned.

(** ** The error taxonomy of the specification

    The code raises plain [Error] objects; the classes that the
    specification names are told apart by their messages. *)

Definition ConfigurationError (e : Thrown) : Prop :=
  e = Error "Invalid API key" \/ e = Error "Invalid domain" \/
  e = Error "Invalid project ID".

Definition ValidationError (e : Thrown) : Prop :=
  e = Error "Invalid email address" \/ e = Error "Invalid category IDs" \/
  e = Error "Invalid scenario ID" \/ e = Error "Invalid contact ID".

Definition OriginUnavailableError (e : Thrown) : Prop :=
  e = Error "Origin not found".

Definition UpstreamApiError (status message : JsVal) (e : Thrown) : Prop :=
  e = Error ("Peakmails API Error: " ++ Js.toString status ++ " - "
             ++ Js.toString message).

Definition TransportError (e : Thrown) : Prop :=
  e = Error "Peakmails API Error: No response received from the server".

Definition UnexpectedClientError (message : JsVal) (e : Thrown) : Prop :=
  e = Error ("Peakmails SDK Error: " ++ Js.toString message).

(** What the specification asks of a required argument. *)
Definition nonempty_string (v : JsVal) : bool :=
  match v with
  | JStr s => negb (s =? "")
  | _ => false
  end.

Definition nonempty_list (v : JsVal) : bool :=
  match v with
  | JArr (_ :: _) => true
  | _ => false
  end.

(** The required inputs of the operations, section 4.5 of the
    specification: the properties of the argument object that an operation
    of the signed client checks. *)
Definition signed_valid (op : Signed.Operation) (arg : JsVal) : bool :=
  match op with
  | Signed.AddContact => nonempty_string (Js.lookup "email" (Js.fields_of arg))
  | Signed.AddContactToCategories =>
      nonempty_string (Js.lookup "email" (Js.fields_of arg)) &&
      nonempty_list (Js.lookup "categories" (Js.fields_of arg))
  | Signed.TriggerScenario =>
      nonempty_string (Js.lookup "scenario" (Js.fields_of arg)) &&
      nonempty_string (Js.lookup "email" (Js.fields_of arg))
  | Signed.GetScenarioCustomFields =>
      nonempty_string (Js.lookup "scenario" (Js.fields_of arg))
  end.

(** The same for the positional arguments of the unsigned client; listing
    the scenarios or the categories requires nothing. *)
Definition unsigned_valid (op : Unsigned.Operation) (args : list JsVal) : bool :=
  let arg0 := nth 0 args JUndefined in
  let arg1 := nth 1 args JUndefined in
  match op with
  | Unsigned.AddContact => nonempty_string (Js.lookup "email" (Js.fields_of arg0))
  | Unsigned.AddContactToCategories => nonempty_string arg0 && nonempty_list arg1
  | Unsigned.TriggerScenario => nonempty_string arg0 && nonempty_string arg1
  | Unsigned.GetScenarioCustomFields => nonempty_string arg0
  | Unsigned.GetContactDetails => nonempty_string arg0
  | Unsigned.GetScenarios | Unsigned.GetCategories => true
  end.


(** ** Sample data

    Configurations, environments and stub transports on which the
    properties below are exercised. *)

Definition backend_options : JsVal :=
  JObj [("apiKey", JStr "k-123"); ("domain", JStr "shop.example");
        ("projectId", JStr "p-7"); ("secretKey", JStr "s3cr3t")].

Definition browser_options : JsVal :=
  JObj [("apiKey", JStr "k-123"); ("domain", JStr "shop.example");
        ("projectId", JStr "p-7")].

Definition backend_client : Signed.PeakmailsSDK :=
  Signed.mkSDK (JStr "k-123") (JStr "shop.example") (JStr "p-7")
               "https://peakmails.com/api/v1" (JStr "s3cr3t").

Definition browser_client : Signed.PeakmailsSDK :=
  Signed.mkSDK (JStr "k-123") (JStr "shop.example") (JStr "p-7")
               "https://peakmails.com/api/v1" JUndefined.



Definition plain_client : Unsigned.PeakmailsSDK :=
  Unsigned.mkSDK (JStr "k-123") (JStr "shop.example")
                 "https://api.peakmails.com/v1".

(** A browser page served from [https://app.example]. *)
Definition browser_window : JsVal :=
  JObj [("location", JObj [("origin", JStr "https://app.example")])].

(** A transport answering HTTP 200 with body [{id: "c1"}]. *)
Definition stub_created (_ : AxiosConfig) : AxiosOutcome :=
  Resolve (mkResponse 200 (JObj [("id", JStr "c1")])).

(** The error object axios rejects with when the server answers [status]
    with [body]. *)
Definition status_error (status : Z) (body : JsVal) : JsVal :=
  JObj [("message", JStr ("Request failed with status code " ++ Js.decimal status));
        ("request", JObj []);
        ("response", JObj [("status", JNum status); ("data", body)])].

(** A transport answering HTTP 500 with body [{message: "boom"}]. *)
Definition stub_boom (_ : AxiosConfig) : AxiosOutcome :=
  Reject (status_error 500 (JObj [("message", JStr "boom")])).

(** A transport answering HTTP 500 with the JSON body [null]. *)
Definition stub_null_body (_ : AxiosConfig) : AxiosOutcome :=
  Reject (status_error 500 JNull).

(** A transport whose request is sent and never answered. *)
Definition stub_silent (_ : AxiosConfig) : AxiosOutcome :=
  Reject (JObj [("message", JStr "Network Error"); ("request", JObj [])]).

(** A transport that fails before anything is sent. *)
Definition stub_broken (_ : AxiosConfig) : AxiosOutcome :=
  Reject (JObj [("message", JStr "Invalid URL")]).

(** A query-string builder for the option objects [{}] and [{page: n}]. *)
Definition sample_query (options : JsVal) : Completion string :=
  match Js.lookup "page" (Js.fields_of options) with
  | JUndefined => Normal ""
  | page => Normal ("page=" ++ Js.toString page)
  end.



(** A query-string builder that refuses its argument, as the platform does
    for a sequence whose items are not pairs. *)
Definition failing_query (_ : JsVal) : Completion string := Throw TypeError.

(** * Properties *)

(** ** Known answers of the hash *)

Example sha256_empty :
  SHA256.sha256_hex "" =
  "e3b0c44298fc1c149afbf4c8996fb92427ae41e4649b934ca495991b7852b855".
Proof. vm_compute. reflexivity. Qed.

Example sha256_abc :
  SHA256.sha256_hex "abc" =
  "ba7816bf8f01cfea414140de5dae2223b00361a396177a9cb410ff61f20015ad".
Proof. vm_compute. reflexivity. Qed.


(** ** Basic facts about the JavaScript fragment *)

Lemma get_defined (v : JsVal) (key : string) :
  Js.nullish v = false ->
  Js.get v key = Normal (Js.lookup key (Js.fields_of v)).
Proof. intros H. unfold Js.get. rewrite H. reflexivity. Qed.

Lemma get_object (fields : list (string * JsVal)) (key : string) :
  Js.get (JObj fields) key = Normal (Js.lookup key fields).
Proof. reflexivity. Qed.

Lemma truthy_defined (v : JsVal) : Js.truthy v = true -> Js.nullish v = false.
Proof. destruct v; simpl; congruence. Qed.

(** The test of the code and the wording of the specification agree. *)
Lemma not_a_string_spec (v : JsVal) : not_a_string v = negb (nonempty_string v).
Proof.
  unfold not_a_string.
  destruct v as [| |b|n|s|items|fields]; simpl; try reflexivity.
  - destruct b; reflexivity.
  - destruct (n =? 0)%Z; reflexivity.
  - destruct (s =? ""); reflexivity.
Qed.

Lemma not_a_list_spec (v : JsVal) : not_a_list v = negb (nonempty_list v).
Proof.
  unfold not_a_list.
  destruct v as [| |b|n|s|items|fields]; simpl; try reflexivity.
  destruct items; reflexivity.
Qed.

Lemma nonempty_string_inv (v : JsVal) :
  nonempty_string v = true -> exists s, v = JStr s /\ s <> "".
Proof.
  destruct v as [| |b|n|s|items|fields]; simpl; try discriminate.
  intros H. exists s. split; [reflexivity|].
  intros ->. discriminate.
Qed.

Lemma nonempty_string_truthy (v : JsVal) :
  nonempty_string v = true -> Js.truthy v = true.
Proof. destruct v; simpl; congruence. Qed.

(** ** The transport is reached once, at the very end *)

Lemma dispatch_sent (axios : AxiosConfig -> AxiosOutcome) (config : AxiosConfig)
      (sent : Sent) :
  snd (dispatch axios config sent) = (sent ++ [config])%list.
Proof. reflexivity. Qed.

Lemma dispatch_resolved (axios : AxiosConfig -> AxiosOutcome)
      (config : AxiosConfig) (response : AxiosResponse) (sent : Sent) :
  axios config = Resolve response ->
  fst (dispatch axios config sent) = Normal (response_data response).
Proof. intros H. unfold dispatch. simpl. rewrite H. reflexivity. Qed.

Lemma sent_grows (sent : Sent) (config : AxiosConfig) :
  (sent ++ [config])%list <> sent.
Proof.
  intros H. apply (f_equal (@List.length _)) in H.
  rewrite length_app in H. simpl in H. lia.
Qed.

(** [request] of the signed client either stops before the transport, with
    the requests sent so far untouched, or hands over exactly one
    envelope built from the resolved origin. *)
Lemma signed_request_cases (window : JsVal) (axios : AxiosConfig -> AxiosOutcome)
      (this : Signed.PeakmailsSDK) (method endpoint : string) (data : JsVal)
      (sent : Sent) :
  (exists e, Signed.resolveOrigin window this = Throw e /\
             Signed.request window axios this method endpoint data sent
             = (Throw e, sent)) \/
  (exists origin, Signed.resolveOrigin window this = Normal origin /\
                  Js.truthy origin = false /\
                  Signed.request window axios this method endpoint data sent
                  = (Throw (Error "Origin not found"), sent)) \/
  (exists origin, Signed.resolveOrigin window this = Normal origin /\
                  Js.truthy origin = true /\
                  Signed.request window axios this method endpoint data sent
                  = dispatch axios
                      (Signed.envelope this method endpoint (default_data data)
                         origin (Signed.generateCSRFToken this origin)) sent).
Proof.
  unfold Signed.request, bindA, lift.
  destruct (Signed.resolveOrigin window this) as [origin|e].
  - destruct (Js.truthy origin) eqn:T.
    + right; right. exists origin. simpl. auto.
    + right; left. exists origin. simpl. auto.
  - left. exists e. auto.
Qed.

(** ** The origin of the page *)



(** ** C1: origin resolution *)



Example backend_client_constructed :
  Signed.constructor backend_options = Normal backend_client.
Proof. reflexivity. Qed.

Example browser_client_constructed :
  Signed.constructor browser_options = Normal browser_client.
Proof. reflexivity. Qed.


(** ** C2: the signature token *)

Lemma be_bytes_length (count : nat) (x : Z) :
  List.length (SHA256.be_bytes count x) = count.
Proof.
  unfold SHA256.be_bytes.
  now rewrite length_map, length_rev, length_seq.
Qed.

Lemma hex_length (bytes : list Z) :
  String.length (SHA256.hex bytes) = 2 * List.length bytes.
Proof.
  induction bytes as [|x rest IH]; simpl; [reflexivity|].
  rewrite IH. lia.
Qed.

Lemma digest_length (msg : list Z) : List.length (SHA256.digest msg) = 32.
Proof.
  unfold SHA256.digest. cbv zeta.
  set (s := fold_left SHA256.compress _ _).
  cbn [flat_map].
  repeat rewrite length_app.
  repeat rewrite be_bytes_length.
  reflexivity.
Qed.

(** The digest is always 64 characters long. *)
Lemma sha256_hex_length (s : string) :
  String.length (SHA256.sha256_hex s) = 64.
Proof.
  unfold SHA256.sha256_hex. now rewrite hex_length, digest_length.
Qed.

Lemma hex_digit_is_hex (x : Z) :
  (0 <= x < 16)%Z -> is_hex_char (SHA256.hex_digit x) = true.
Proof.
  intros Hx.
  rewrite <- (Z2Nat.id x) by lia.
  assert (Hn : Z.to_nat x < 16) by lia.
  revert Hn. generalize (Z.to_nat x). intros n Hn.
  do 16 (destruct n as [|n]; [reflexivity|]).
  lia.
Qed.

Lemma hex_all_hex (bytes : list Z) :
  Forall (fun x => 0 <= x < 256)%Z bytes -> all_hex (SHA256.hex bytes) = true.
Proof.
  induction 1 as [|x rest Hx _ IH]; [reflexivity|].
  cbn [SHA256.hex all_hex].
  rewrite IH, !hex_digit_is_hex; [reflexivity | |].
  - apply Z.mod_pos_bound. lia.
  - split; [apply Z.div_pos; lia | apply Z.div_lt_upper_bound; lia].
Qed.

Lemma be_bytes_range (count : nat) (x : Z) :
  Forall (fun y => 0 <= y < 256)%Z (SHA256.be_bytes count x).
Proof.
  unfold SHA256.be_bytes. apply Forall_map, Forall_forall.
  intros i _. apply Z.mod_pos_bound. lia.
Qed.

Lemma digest_range (msg : list Z) :
  Forall (fun y => 0 <= y < 256)%Z (SHA256.digest msg).
Proof.
  unfold SHA256.digest. cbv zeta.
  apply Forall_flat_map, Forall_forall.
  intros w _. apply be_bytes_range.
Qed.

(** The digest is written in lower-case hexadecimal digits. *)
Lemma sha256_hex_all_hex (s : string) : all_hex (SHA256.sha256_hex s) = true.
Proof. unfold SHA256.sha256_hex. apply hex_all_hex, digest_range. Qed.

(** C2, as stated, fails: the apiKey and the origin are concatenated with
    nothing in between, so the pairs ("a", "bc") and ("ab", "c") are distinct
    and yet are hashed to the same token. *)
Lemma C2_distinct_pairs_same_token :
  let this1 := Signed.mkSDK (JStr "a") (JStr "shop.example") (JStr "p-7")
                            "https://peakmails.com/api/v1" JUndefined in
  let this2 := Signed.mkSDK (JStr "ab") (JStr "shop.example") (JStr "p-7")
                            "https://peakmails.com/api/v1" JUndefined in
  (Signed.apiKey this1, JStr "bc") <> (Signed.apiKey this2, JStr "c") /\
  Signed.generateCSRFToken this1 (JStr "bc")
  = Signed.generateCSRFToken this2 (JStr "c").
Proof.
  split.
  - simpl. intros H. discriminate H.
  - reflexivity.
Qed.

(** C2, amended.  The token is a function of the apiKey and the origin
    alone: it is the 64-character hexadecimal SHA-256 digest of their
    concatenation, so that equal inputs give equal tokens, and so do any two
    pairs with the same concatenation; on the sampled pairs, changing the
    apiKey or the origin changes the token. *)
Theorem C2_token_of_concatenation :
  (forall (this : Signed.PeakmailsSDK) (origin : JsVal),
     Signed.generateCSRFToken this origin
     = SHA256.sha256_hex (Js.toString (Signed.apiKey this) ++ Js.toString origin)
     /\ String.length (Signed.generateCSRFToken this origin) = 64
     /\ all_hex (Signed.generateCSRFToken this origin) = true) /\
  (forall (this1 this2 : Signed.PeakmailsSDK) (origin1 origin2 : JsVal),
     Signed.apiKey this1 = Signed.apiKey this2 ->
     origin1 = origin2 ->
     Signed.generateCSRFToken this1 origin1
     = Signed.generateCSRFToken this2 origin2) /\
  (forall (this1 this2 : Signed.PeakmailsSDK) (origin1 origin2 : JsVal),
     Js.toString (Signed.apiKey this1) ++ Js.toString origin1
     = Js.toString (Signed.apiKey this2) ++ Js.toString origin2 ->
     Signed.generateCSRFToken this1 origin1
     = Signed.generateCSRFToken this2 origin2) /\
  (let other := Signed.mkSDK (JStr "k-124") (JStr "shop.example") (JStr "p-7")
                             "https://peakmails.com/api/v1" JUndefined in
   Signed.generateCSRFToken browser_client (JStr "https://app.example")
   <> Signed.generateCSRFToken other (JStr "https://app.example") /\
   Signed.generateCSRFToken browser_client (JStr "https://app.example")
   <> Signed.generateCSRFToken browser_client (JStr "https://app2.example") /\
   Signed.generateCSRFToken browser_client (JStr "https://app.example")
   <> Signed.generateCSRFToken browser_client (JStr "backend-implementation")).
Proof.
  split; [|split; [|split]].
  - intros this origin. split; [reflexivity|].
    unfold Signed.generateCSRFToken.
    split; [apply sha256_hex_length | apply sha256_hex_all_hex].
  - intros this1 this2 origin1 origin2 Hk Ho.
    unfold Signed.generateCSRFToken. now rewrite Hk, Ho.
  - intros this1 this2 origin1 origin2 H.
    unfold Signed.generateCSRFToken. now rewrite H.
  - cbv zeta. repeat split; vm_compute; discriminate.
Qed.

Lemma C2_token_of_concatenation_witness :
  Signed.generateCSRFToken
    (Signed.mkSDK (JStr "a") (JStr "shop.example") (JStr "p-7")
                  "https://peakmails.com/api/v1" JUndefined) (JStr "bc")
  = Signed.generateCSRFToken
      (Signed.mkSDK (JStr "ab") (JStr "shop.example") (JStr "p-7")
                    "https://peakmails.com/api/v1" JUndefined) (JStr "c") /\
  Signed.generateCSRFToken backend_client (JStr "backend-implementation")
  = Signed.generateCSRFToken browser_client (JStr "backend-implementation").
Proof.
  split.
  - apply (proj1 (proj2 (proj2 C2_token_of_concatenation))). reflexivity.
  - apply (proj1 (proj2 C2_token_of_concatenation)); reflexivity.
Defined.

Example token_of_backend_client :
  Signed.generateCSRFToken backend_client (JStr "backend-implementation")
  = "db479393547c7a0fc489522dc53d9f68c937c54c3197ac4c3512ce424c8e09c9".
Proof. vm_compute. reflexivity. Qed.

(** ** C4: construction *)

(** C4.  Construction from a configuration object.  The signed client
    ([src/unnamed/part_000]) is built exactly when apiKey, domain and
    projectId are non-empty strings, the unsigned one ([src/index.js])
    exactly when apiKey and domain are; every other configuration is
    refused with one of the "Invalid ..." errors.  Nothing is asked of the
    remaining properties: the secretKey is stored as it comes. *)
Theorem C4_construction (fields : list (string * JsVal)) :
  let present key := nonempty_string (Js.lookup key fields) in
  (present "apiKey" && present "domain" && present "projectId" = false ->
   exists e, ConfigurationError e /\
             Signed.constructor (JObj fields) = Throw e) /\
  (present "apiKey" && present "domain" && present "projectId" = true ->
   Signed.constructor (JObj fields)
   = Normal (Signed.mkSDK (Js.lookup "apiKey" fields) (Js.lookup "domain" fields)
               (Js.lookup "projectId" fields) "https://peakmails.com/api/v1"
               (Js.lookup "secretKey" fields))) /\
  (present "apiKey" && present "domain" = false ->
   exists e, ConfigurationError e /\
             Unsigned.constructor (JObj fields) = Throw e) /\
  (present "apiKey" && present "domain" = true ->
   Unsigned.constructor (JObj fields)
   = Normal (Unsigned.mkSDK (Js.lookup "apiKey" fields)
               (Js.lookup "domain" fields) "https://api.peakmails.com/v1")).
Proof.
  intros present. subst present. cbv beta.
  unfold Signed.constructor, Unsigned.constructor.
  repeat rewrite get_object. cbn [bindC].
  repeat rewrite not_a_string_spec.
  destruct (nonempty_string (Js.lookup "apiKey" fields));
    destruct (nonempty_string (Js.lookup "domain" fields));
    destruct (nonempty_string (Js.lookup "projectId" fields));
    cbn [negb andb];
    (split; [|split; [|split]]); intros H; try discriminate H;
    try reflexivity;
    eexists; (split; [|reflexivity]); unfold ConfigurationError; auto.
Qed.

Lemma C4_construction_witness :
  Signed.constructor backend_options = Normal backend_client /\
  (exists e, ConfigurationError e /\
             Signed.constructor
               (JObj [("apiKey", JStr "k-123"); ("domain", JStr "shop.example")])
             = Throw e) /\
  Unsigned.constructor browser_options = Normal plain_client /\
  (exists e, ConfigurationError e /\
             Unsigned.constructor (JObj [("apiKey", JStr ""); ("domain", JNum 3)])
             = Throw e).
Proof.
  split; [|split; [|split]].
  - apply (C4_construction
             [("apiKey", JStr "k-123"); ("domain", JStr "shop.example");
              ("projectId", JStr "p-7"); ("secretKey", JStr "s3cr3t")]).
    reflexivity.
  - apply (C4_construction
             [("apiKey", JStr "k-123"); ("domain", JStr "shop.example")]).
    reflexivity.
  - apply (C4_construction
             [("apiKey", JStr "k-123"); ("domain", JStr "shop.example");
              ("projectId", JStr "p-7")]).
    reflexivity.
  - apply (C4_construction [("apiKey", JStr ""); ("domain", JNum 3)]).
    reflexivity.
Defined.

(** ** Validation comes first *)

(** A public operation of the signed client refuses an argument that lacks
    a required input before anything else happens, and is a plain call of
    [request] otherwise. *)
Lemma signed_invoke_cases (window : JsVal) (axios : AxiosConfig -> AxiosOutcome)
      (this : Signed.PeakmailsSDK) (op : Signed.Operation) (arg : JsVal) :
  Js.nullish arg = false ->
  (signed_valid op arg = false /\
   exists e, ValidationError e /\
     forall sent, Signed.invoke window axios this op arg sent = (Throw e, sent)) \/
  (signed_valid op arg = true /\
   exists method endpoint data,
     forall sent, Signed.invoke window axios this op arg sent
                  = Signed.request window axios this method endpoint data sent).
Proof.
  intros Harg.
  destruct op; simpl;
    unfold Signed.addContact, Signed.addContactToCategories,
      Signed.triggerScenario, Signed.getScenarioCustomFields, bindA, lift, throw, lift;
    repeat rewrite (get_defined _ _ Harg);
    repeat rewrite not_a_string_spec; repeat rewrite not_a_list_spec.
  - destruct (nonempty_string (Js.lookup "email" (Js.fields_of arg))); simpl.
    + right. split; [reflexivity|]. now eexists _, _, _.
    + left. split; [reflexivity|]. exists (Error "Invalid email address").
      split; [unfold ValidationError; auto | reflexivity].
  - destruct (nonempty_string (Js.lookup "email" (Js.fields_of arg))); simpl.
    + destruct (nonempty_list (Js.lookup "categories" (Js.fields_of arg))); simpl.
      * right. split; [reflexivity|]. now eexists _, _, _.
      * left. split; [reflexivity|]. exists (Error "Invalid category IDs").
        split; [unfold ValidationError; auto | reflexivity].
    + left. split; [reflexivity|]. exists (Error "Invalid email address").
      split; [unfold ValidationError; auto | reflexivity].
  - destruct (nonempty_string (Js.lookup "scenario" (Js.fields_of arg))); simpl.
    + destruct (nonempty_string (Js.lookup "email" (Js.fields_of arg))); simpl.
      * right. split; [reflexivity|]. now eexists _, _, _.
      * left. split; [reflexivity|]. exists (Error "Invalid email address").
        split; [unfold ValidationError; auto | reflexivity].
    + left. split; [reflexivity|]. exists (Error "Invalid scenario ID").
      split; [unfold ValidationError; auto | reflexivity].
  - destruct (nonempty_string (Js.lookup "scenario" (Js.fields_of arg))); simpl.
    + right. split; [reflexivity|]. now eexists _, _, _.
    + left. split; [reflexivity|]. exists (Error "Invalid scenario ID").
      split; [unfold ValidationError; auto | reflexivity].
Qed.

(** The same for the unsigned client, whose two listing operations ask the
    platform for a query string first. *)
Lemma unsigned_invoke_cases (axios : AxiosConfig -> AxiosOutcome)
      (URLSearchParams : JsVal -> Completion string)
      (this : Unsigned.PeakmailsSDK) (op : Unsigned.Operation)
      (args : list JsVal) :
  (op = Unsigned.AddContact -> Js.nullish (nth 0 args JUndefined) = false) ->
  (unsigned_valid op args = false /\
   exists e, ValidationError e /\
     forall sent, Unsigned.invoke axios URLSearchParams this op args sent
                  = (Throw e, sent)) \/
  (unsigned_valid op args = true /\
   ((exists e, forall sent,
        Unsigned.invoke axios URLSearchParams this op args sent = (Throw e, sent)) \/
    (exists method endpoint data,
        forall sent, Unsigned.invoke axios URLSearchParams this op args sent
                     = Unsigned.request axios this method endpoint data sent))).
Proof.
  intros Harg.
  destruct op; simpl;
    unfold Unsigned.addContact, Unsigned.addContactToCategories,
      Unsigned.triggerScenario, Unsigned.getScenarios,
      Unsigned.getScenarioCustomFields, Unsigned.getCategories,
      Unsigned.getContactDetails, bindA, lift, throw, lift;
    repeat rewrite not_a_string_spec; repeat rewrite not_a_list_spec.
  - rewrite (get_defined _ _ (Harg eq_refl)). rewrite not_a_string_spec.
    destruct (nonempty_string (Js.lookup "email" _)); simpl.
    + right. split; [reflexivity|]. right. now eexists _, _, _.
    + left. split; [reflexivity|]. exists (Error "Invalid email address").
      split; [unfold ValidationError; auto | reflexivity].
  - destruct (nonempty_string (nth 0 args JUndefined)); simpl.
    + destruct (nonempty_list (nth 1 args JUndefined)); simpl.
      * right. split; [reflexivity|]. right. now eexists _, _, _.
      * left. split; [reflexivity|]. exists (Error "Invalid category IDs").
        split; [unfold ValidationError; auto | reflexivity].
    + left. split; [reflexivity|]. exists (Error "Invalid contact ID").
      split; [unfold ValidationError; auto | reflexivity].
  - destruct (nonempty_string (nth 0 args JUndefined)); simpl.
    + destruct (nonempty_string (nth 1 args JUndefined)); simpl.
      * right. split; [reflexivity|]. right. now eexists _, _, _.
      * left. split; [reflexivity|]. exists (Error "Invalid contact ID").
        split; [unfold ValidationError; auto | reflexivity].
    + left. split; [reflexivity|]. exists (Error "Invalid scenario ID").
      split; [unfold ValidationError; auto | reflexivity].
  - right. split; [reflexivity|].
    destruct (URLSearchParams (default_data (nth 0 args JUndefined))) as [q|e].
    + right. now eexists _, _, _.
    + left. now exists e.
  - destruct (nonempty_string (nth 0 args JUndefined)); simpl.
    + right. split; [reflexivity|]. right. now eexists _, _, _.
    + left. split; [reflexivity|]. exists (Error "Invalid scenario ID").
      split; [unfold ValidationError; auto | reflexivity].
  - right. split; [reflexivity|].
    destruct (URLSearchParams (default_data (nth 0 args JUndefined))) as [q|e].
    + right. now eexists _, _, _.
    + left. now exists e.
  - destruct (nonempty_string (nth 0 args JUndefined)); simpl.
    + right. split; [reflexivity|]. right. now eexists _, _, _.
    + left. split; [reflexivity|]. exists (Error "Invalid contact ID").
      split; [unfold ValidationError; auto | reflexivity].
Qed.

Lemma signed_invoke_nullish (window : JsVal) (axios : AxiosConfig -> AxiosOutcome)
      (this : Signed.PeakmailsSDK) (op : Signed.Operation) (arg : JsVal)
      (sent : Sent) :
  Js.nullish arg = true ->
  Signed.invoke window axios this op arg sent = (Throw TypeError, sent).
Proof.
  intros H.
  destruct op; simpl;
    unfold Signed.addContact, Signed.addContactToCategories,
      Signed.triggerScenario, Signed.getScenarioCustomFields, bindA, lift,
      Js.get;
    rewrite H; reflexivity.
Qed.

(** Every run of a public operation of the signed client ends before the
    transport, leaving the requests sent as they were, or is the dispatch of
    one envelope built from a resolved origin. *)
Lemma signed_invoke_outcome (window : JsVal) (axios : AxiosConfig -> AxiosOutcome)
      (this : Signed.PeakmailsSDK) (op : Signed.Operation) (arg : JsVal)
      (sent : Sent) :
  (exists e, Signed.invoke window axios this op arg sent = (Throw e, sent)) \/
  (exists method endpoint data origin,
     Signed.resolveOrigin window this = Normal origin /\
     Js.truthy origin = true /\
     Signed.invoke window axios this op arg sent
     = dispatch axios
         (Signed.envelope this method endpoint data origin
            (Signed.generateCSRFToken this origin)) sent).
Proof.
  destruct (Js.nullish arg) eqn:Harg.
  - left. exists TypeError. now apply signed_invoke_nullish.
  - destruct (signed_invoke_cases window axios this op arg Harg)
      as [(_ & e & _ & He) | (_ & method & endpoint & data & Hr)].
    + left. exists e. apply He.
    + rewrite Hr.
      destruct (signed_request_cases window axios this method endpoint data sent)
        as [(e & _ & He) | [(origin & _ & _ & He) | (origin & Ho & T & Hd)]].
      * left. exists e. exact He.
      * left. eexists. exact He.
      * right. exists method, endpoint, (default_data data), origin. auto.
Qed.

Lemma unsigned_invoke_outcome (axios : AxiosConfig -> AxiosOutcome)
      (URLSearchParams : JsVal -> Completion string)
      (this : Unsigned.PeakmailsSDK) (op : Unsigned.Operation)
      (args : list JsVal) (sent : Sent) :
  (exists e, Unsigned.invoke axios URLSearchParams this op args sent
             = (Throw e, sent)) \/
  (exists method endpoint data,
     Unsigned.invoke axios URLSearchParams this op args sent
     = dispatch axios (Unsigned.envelope this method endpoint data) sent).
Proof.
  destruct (Js.nullish (nth 0 args JUndefined)) eqn:Harg.
  - destruct op.
    1: { left. exists TypeError. simpl.
         unfold Unsigned.addContact, bindA, lift, Js.get. now rewrite Harg. }
    all: match goal with
         | |- context [Unsigned.invoke _ _ _ ?o _ _] =>
             assert (Hop : o = Unsigned.AddContact ->
                           Js.nullish (nth 0 args JUndefined) = false)
               by discriminate;
             destruct (unsigned_invoke_cases axios URLSearchParams this o args Hop)
               as [(_ & e & _ & He) | (_ & [(e & He) | (m & ep & d & Hr)])]
         end;
      [ left; exists e; apply He
      | left; exists e; apply He
      | right; exists m, ep, (default_data d); rewrite Hr; reflexivity ].
  - destruct (unsigned_invoke_cases axios URLSearchParams this op args
                (fun _ => Harg))
      as [(_ & e & _ & He) | (_ & [(e & He) | (m & ep & d & Hr)])].
    + left. exists e. apply He.
    + left. exists e. apply He.
    + right. exists m, ep, (default_data d). rewrite Hr. reflexivity.
Qed.

(** ** C5: validation precedes the network *)




(** ** C10: validation precedes origin resolution *)

Lemma validation_is_not_origin (e : Thrown) :
  ValidationError e -> ~ OriginUnavailableError e.
Proof.
  unfold ValidationError, OriginUnavailableError.
  intros [H | [H | [H | H]]] H'; rewrite H in H'; discriminate H'.
Qed.

(** C10, as stated, fails where the argument itself is the invalid one: an
    operation of the signed client called with [null] or [undefined], by a
    client with no secretKey and no [window], is rejected with the
    [TypeError] of reading the argument, not with a validation error. *)
Lemma C10_missing_argument_is_no_validation_error :
  Js.truthy (Signed.secretKey browser_client) = false /\
  Signed.invoke JUndefined stub_created browser_client
                Signed.TriggerScenario JUndefined []
  = (Throw TypeError, []) /\
  Signed.invoke JUndefined stub_created browser_client
                Signed.GetScenarioCustomFields JNull []
  = (Throw TypeError, []) /\
  ~ ValidationError TypeError /\
  ~ OriginUnavailableError TypeError.
Proof.
  repeat split.
  - unfold ValidationError. intros [H | [H | [H | H]]]; discriminate H.
  - intros H. discriminate H.
Qed.

(** C10, amended.  In the signed client an invalid required input, in an
    argument that is an object as the declaration asks for (any value but
    [null] and [undefined]), is reported as a validation error, never as
    "Origin not found", whatever the environment; in particular with no
    secretKey and no [window], where the same call with valid inputs does
    fail on the origin.  A call whose argument is [null] or [undefined] is
    rejected before the origin is looked at, too: its error is never
    "Origin not found", and nothing is sent. *)
Theorem C10_validation_before_origin (window : JsVal)
        (axios : AxiosConfig -> AxiosOutcome) (this : Signed.PeakmailsSDK)
        (op : Signed.Operation) (arg : JsVal) (sent : Sent) :
  (Js.nullish arg = false ->
   (signed_valid op arg = false ->
    exists e, ValidationError e /\ ~ OriginUnavailableError e /\
              Signed.invoke window axios this op arg sent = (Throw e, sent)) /\
   (signed_valid op arg = true ->
    Js.truthy (Signed.secretKey this) = false ->
    window = JUndefined ->
    exists e, OriginUnavailableError e /\
              Signed.invoke window axios this op arg sent = (Throw e, sent))) /\
  (Js.nullish arg = true ->
   exists e, ~ OriginUnavailableError e /\
             Signed.invoke window axios this op arg sent = (Throw e, sent)).
Proof.
  split.
  - intros Harg.
    destruct (signed_invoke_cases window axios this op arg Harg)
      as [(Hbad & e & Hv & He) | (Hok & method & endpoint & data & Hr)].
    + split; [|congruence].
      intros _. exists e.
      split; [exact Hv|].
      split; [now apply validation_is_not_origin | apply He].
    + split; [congruence|].
      intros _ Hsecret ->. exists (Error "Origin not found").
      split; [reflexivity|].
      rewrite Hr. unfold Signed.request, bindA, lift, Signed.resolveOrigin.
      rewrite Hsecret. reflexivity.
  - intros Harg. exists TypeError.
    split; [intros H; discriminate H | now apply signed_invoke_nullish].
Qed.

Lemma C10_validation_before_origin_witness :
  (exists e, ValidationError e /\ ~ OriginUnavailableError e /\
     Signed.addContact JUndefined stub_created browser_client
       (JObj [("name", JStr "Ann")]) []
     = (Throw e, [])) /\
  (exists e, OriginUnavailableError e /\
     Signed.addContact JUndefined stub_created browser_client
       (JObj [("email", JStr "a@b.com")]) []
     = (Throw e, [])) /\
  (exists e, ~ OriginUnavailableError e /\
     Signed.addContact JUndefined stub_created browser_client JUndefined []
     = (Throw e, [])).
Proof.
  split; [|split].
  - apply (proj1 (C10_validation_before_origin JUndefined stub_created
                    browser_client Signed.AddContact
                    (JObj [("name", JStr "Ann")]) []) eq_refl).
    reflexivity.
  - apply (proj1 (C10_validation_before_origin JUndefined stub_created
                    browser_client Signed.AddContact
                    (JObj [("email", JStr "a@b.com")]) []) eq_refl);
      reflexivity.
  - apply (proj2 (C10_validation_before_origin JUndefined stub_created
                    browser_client Signed.AddContact JUndefined [])).
    reflexivity.
Defined.

(** ** C6: the response body comes back as it is *)

Lemma dispatched_config (axios : AxiosConfig -> AxiosOutcome)
      (config config' : AxiosConfig) (sent : Sent) :
  snd (dispatch axios config sent) = (sent ++ [config'])%list -> config = config'.
Proof.
  rewrite dispatch_sent. intros H.
  apply app_inv_head in H. now inversion H.
Qed.

(** C6.  Whenever a public operation, of either client, has handed a
    request to the transport and the transport resolves it with a response,
    the operation resolves with the body of that response, unchanged. *)
Theorem C6_verbatim_success :
  (forall (window : JsVal) (axios : AxiosConfig -> AxiosOutcome)
          (this : Signed.PeakmailsSDK) (op : Signed.Operation) (arg : JsVal)
          (sent : Sent) (config : AxiosConfig) (response : AxiosResponse),
     snd (Signed.invoke window axios this op arg sent) = (sent ++ [config])%list ->
     axios config = Resolve response ->
     fst (Signed.invoke window axios this op arg sent)
     = Normal (response_data response)) /\
  (forall (axios : AxiosConfig -> AxiosOutcome)
          (URLSearchParams : JsVal -> Completion string)
          (this : Unsigned.PeakmailsSDK) (op : Unsigned.Operation)
          (args : list JsVal) (sent : Sent) (config : AxiosConfig)
          (response : AxiosResponse),
     snd (Unsigned.invoke axios URLSearchParams this op args sent)
     = (sent ++ [config])%list ->
     axios config = Resolve response ->
     fst (Unsigned.invoke axios URLSearchParams this op args sent)
     = Normal (response_data response)).
Proof.
  split.
  - intros window axios this op arg sent config response Hsent Hres.
    destruct (signed_invoke_outcome window axios this op arg sent)
      as [(e & He) | (m & ep & d & origin & _ & _ & Hd)].
    + rewrite He in Hsent. simpl in Hsent. symmetry in Hsent.
      now apply sent_grows in Hsent.
    + rewrite Hd in *. apply dispatched_config in Hsent. subst config.
      now apply dispatch_resolved.
  - intros axios URLSearchParams this op args sent config response Hsent Hres.
    destruct (unsigned_invoke_outcome axios URLSearchParams this op args sent)
      as [(e & He) | (m & ep & d & Hd)].
    + rewrite He in Hsent. simpl in Hsent. symmetry in Hsent.
      now apply sent_grows in Hsent.
    + rewrite Hd in *. apply dispatched_config in Hsent. subst config.
      now apply dispatch_resolved.
Qed.

Lemma C6_verbatim_success_witness :
  fst (Signed.addContact JUndefined stub_created backend_client
         (JObj [("email", JStr "a@b.com")]) [])
  = Normal (JObj [("id", JStr "c1")]) /\
  fst (Unsigned.getScenarios stub_created sample_query plain_client
         (JObj [("page", JNum 2)]) [])
  = Normal (JObj [("id", JStr "c1")]).
Proof.
  split.
  - apply (proj1 C6_verbatim_success JUndefined stub_created backend_client
             Signed.AddContact (JObj [("email", JStr "a@b.com")]) []
             (Signed.envelope backend_client "POST" "/add-contact"
                (JObj [("email", JStr "a@b.com")])
                (JStr "backend-implementation")
                (Signed.generateCSRFToken backend_client
                   (JStr "backend-implementation")))
             (mkResponse 200 (JObj [("id", JStr "c1")])));
      reflexivity.
  - apply (proj2 C6_verbatim_success stub_created sample_query plain_client
             Unsigned.GetScenarios [JObj [("page", JNum 2)]] []
             (Unsigned.envelope plain_client "GET" "/scenarios?page=2" (JObj []))
             (mkResponse 200 (JObj [("id", JStr "c1")])));
      reflexivity.
Defined.

(** ** C7: the headers of the signed client *)

Lemma signed_constructed (options : JsVal) (this : Signed.PeakmailsSDK) :
  Signed.constructor options = Normal this ->
  exists apiKey domain projectId,
    Js.get options "apiKey" = Normal (JStr apiKey) /\
    Js.get options "domain" = Normal (JStr domain) /\
    Js.get options "projectId" = Normal (JStr projectId) /\
    apiKey <> "" /\ domain <> "" /\ projectId <> "" /\
    this = Signed.mkSDK (JStr apiKey) (JStr domain) (JStr projectId)
             "https://peakmails.com/api/v1"
             (Js.lookup "secretKey" (Js.fields_of options)).
Proof.
  unfold Signed.constructor, Js.get.
  destruct (Js.nullish options); [discriminate|]. cbn [bindC].
  repeat rewrite not_a_string_spec.
  destruct (nonempty_string (Js.lookup "apiKey" _)) eqn:Ha; [|discriminate].
  destruct (nonempty_string (Js.lookup "domain" _)) eqn:Hd; [|discriminate].
  destruct (nonempty_string (Js.lookup "projectId" _)) eqn:Hp; [|discriminate].
  cbn [negb]. intros H. inversion H as [Hthis]. clear H.
  apply nonempty_string_inv in Ha, Hd, Hp.
  destruct Ha as (a & -> & Ha), Hd as (d & -> & Hd), Hp as (p & -> & Hp).
  exists a, d, p. repeat split; auto.
Qed.

(** C7.  Every request that an operation of a client built from a
    configuration hands to the transport carries exactly six headers: the
    bearer authorization made of the configured apiKey, the JSON content
    type, the configured domain and projectId, the origin resolved for this
    request and the token computed from the apiKey and that origin. *)
Theorem C7_signed_headers (window : JsVal) (axios : AxiosConfig -> AxiosOutcome)
        (options : JsVal) (this : Signed.PeakmailsSDK) (op : Signed.Operation)
        (arg : JsVal) (sent : Sent) (config : AxiosConfig) :
  Signed.constructor options = Normal this ->
  snd (Signed.invoke window axios this op arg sent) = (sent ++ [config])%list ->
  exists (apiKey domain projectId : string) (origin : JsVal),
    Js.get options "apiKey" = Normal (JStr apiKey) /\
    Js.get options "domain" = Normal (JStr domain) /\
    Js.get options "projectId" = Normal (JStr projectId) /\
    Signed.resolveOrigin window this = Normal origin /\
    headers config
    = [ ("Authorization", JStr ("Bearer " ++ apiKey));
        ("Content-Type", JStr "application/json");
        ("X-Peakmails-Domain", JStr domain);
        ("X-Peakmails-Project", JStr projectId);
        ("X-Peakmails-Origin", origin);
        ("X-Peakmails-CSRF-Token",
         JStr (SHA256.sha256_hex (apiKey ++ Js.toString origin))) ].
Proof.
  intros Hnew Hsent.
  destruct (signed_constructed options this Hnew)
    as (a & d & p & Ha & Hd & Hp & _ & _ & _ & Hthis).
  destruct (signed_invoke_outcome window axios this op arg sent)
    as [(e & He) | (m & ep & body & origin & Ho & _ & Hrun)].
  - rewrite He in Hsent. simpl in Hsent. symmetry in Hsent.
    now apply sent_grows in Hsent.
  - rewrite Hrun in Hsent. apply dispatched_config in Hsent. subst config.
    exists a, d, p, origin.
    repeat (split; [assumption|]).
    rewrite Hthis. reflexivity.
Qed.

Lemma C7_signed_headers_witness :
  exists (apiKey domain projectId : string) (origin : JsVal),
    Js.get browser_options "apiKey" = Normal (JStr apiKey) /\
    Js.get browser_options "domain" = Normal (JStr domain) /\
    Js.get browser_options "projectId" = Normal (JStr projectId) /\
    Signed.resolveOrigin browser_window browser_client = Normal origin /\
    headers (Signed.envelope browser_client "POST" "/trigger-scenario"
               (JObj [("scenario", JStr "s1"); ("email", JStr "a@b.com")])
               (JStr "https://app.example")
               (Signed.generateCSRFToken browser_client
                  (JStr "https://app.example")))
    = [ ("Authorization", JStr ("Bearer " ++ apiKey));
        ("Content-Type", JStr "application/json");
        ("X-Peakmails-Domain", JStr domain);
        ("X-Peakmails-Project", JStr projectId);
        ("X-Peakmails-Origin", origin);
        ("X-Peakmails-CSRF-Token",
         JStr (SHA256.sha256_hex (apiKey ++ Js.toString origin))) ].
Proof.
  apply (C7_signed_headers browser_window stub_created browser_options
           browser_client Signed.TriggerScenario
           (JObj [("scenario", JStr "s1"); ("email", JStr "a@b.com")]) []);
    reflexivity.
Defined.

Example trigger_scenario_headers :
  map headers
      (snd (Signed.triggerScenario browser_window stub_created browser_client
              (JObj [("scenario", JStr "s1"); ("email", JStr "a@b.com")]) []))
  = [[ ("Authorization", JStr "Bearer k-123");
       ("Content-Type", JStr "application/json");
       ("X-Peakmails-Domain", JStr "shop.example");
       ("X-Peakmails-Project", JStr "p-7");
       ("X-Peakmails-Origin", JStr "https://app.example");
       ("X-Peakmails-CSRF-Token",
        JStr "707499df69cf9c1e6f59b77ab82c36c9e84a238b0693e3d54c2b98eec64eb9cc") ]].
Proof. vm_compute. reflexivity. Qed.

(** ** C8: the custom fields of a scenario *)



Example scenario_custom_fields_url :
  map url
      (snd (Signed.getScenarioCustomFields JUndefined stub_created backend_client
              (JObj [("scenario", JStr "welcome flow&x=1")]) []))
  = ["https://peakmails.com/api/v1/get-scenario-custom-fields?scenario=welcome flow&x=1"].
Proof. reflexivity. Qed.

(** ** C9: the unsigned client *)

(** C9.  Whatever operation of the unsigned client is run, it either stops
    before the transport or sends one request, whose headers are exactly the
    bearer authorization, the JSON content type and the domain: there is no
    project, origin or token header, and no [window] and no hash take part
    in the run.  The pattern is the one of the signed client: an invalid
    argument is refused before anything is sent, and a valid one leads
    to the dispatch as soon as the query string, where one is needed, has
    been built. *)
Theorem C9_unsigned_headers (axios : AxiosConfig -> AxiosOutcome)
        (URLSearchParams : JsVal -> Completion string)
        (this : Unsigned.PeakmailsSDK) (op : Unsigned.Operation)
        (args : list JsVal) (sent : Sent) :
  ((exists e, Unsigned.invoke axios URLSearchParams this op args sent
              = (Throw e, sent)) \/
   (exists config : AxiosConfig,
      Unsigned.invoke axios URLSearchParams this op args sent
      = dispatch axios config sent /\
      headers config
      = [ ("Authorization", JStr ("Bearer " ++ Js.toString (Unsigned.apiKey this)));
          ("Content-Type", JStr "application/json");
          ("X-Peakmails-Domain", Unsigned.domain this) ] /\
      Js.lookup "X-Peakmails-Project" (headers config) = JUndefined /\
      Js.lookup "X-Peakmails-Origin" (headers config) = JUndefined /\
      Js.lookup "X-Peakmails-CSRF-Token" (headers config) = JUndefined)) /\
  ((op = Unsigned.AddContact -> Js.nullish (nth 0 args JUndefined) = false) ->
   (unsigned_valid op args = false ->
    exists e, ValidationError e /\
      Unsigned.invoke axios URLSearchParams this op args sent = (Throw e, sent)) /\
   (unsigned_valid op args = true ->
    (forall options, exists query, URLSearchParams options = Normal query) ->
    exists method endpoint data,
      Unsigned.invoke axios URLSearchParams this op args sent
      = dispatch axios (Unsigned.envelope this method endpoint data) sent)).
Proof.
  split.
  - destruct (unsigned_invoke_outcome axios URLSearchParams this op args sent)
      as [(e & He) | (m & ep & d & Hd)].
    + left. now exists e.
    + right. exists (Unsigned.envelope this m ep d).
      split; [exact Hd|]. repeat split.
  - intros Harg.
    destruct (unsigned_invoke_cases axios URLSearchParams this op args Harg)
      as [(Hbad & e & Hv & He) | (Hok & Hrun)].
    + split; [|congruence]. intros _. exists e. split; [exact Hv | apply He].
    + split; [congruence|]. intros _ Hquery.
      destruct op; simpl in *;
        unfold Unsigned.addContact, Unsigned.addContactToCategories,
          Unsigned.triggerScenario, Unsigned.getScenarios,
          Unsigned.getScenarioCustomFields, Unsigned.getCategories,
          Unsigned.getContactDetails, bindA, lift, throw, lift;
        repeat rewrite not_a_string_spec; repeat rewrite not_a_list_spec;
        try rewrite (get_defined _ _ (Harg eq_refl));
        repeat rewrite not_a_string_spec;
        try (apply andb_prop in Hok; destruct Hok as [Hok1 Hok2];
             rewrite Hok1, Hok2);
        try rewrite Hok; cbn [negb];
        try (destruct (Hquery (default_data (nth 0 args JUndefined)))
              as [query ->]);
        now eexists _, _, _.
Qed.

Lemma C9_unsigned_headers_witness :
  (exists e, ValidationError e /\
     Unsigned.invoke stub_created sample_query plain_client
       Unsigned.AddContactToCategories [JStr "c9"; JArr []] []
     = (Throw e, [])) /\
  (exists method endpoint data,
     Unsigned.invoke stub_created sample_query plain_client
       Unsigned.GetCategories [] []
     = dispatch stub_created
         (Unsigned.envelope plain_client method endpoint data) []).
Proof.
  split.
  - apply (proj2 (C9_unsigned_headers stub_created sample_query plain_client
                    Unsigned.AddContactToCategories [JStr "c9"; JArr []] [])).
    + discriminate.
    + reflexivity.
  - apply (proj2 (C9_unsigned_headers stub_created sample_query plain_client
                    Unsigned.GetCategories [] [])).
    + discriminate.
    + reflexivity.
    + intros options. unfold sample_query.
      destruct (Js.lookup "page" (Js.fields_of options)); eexists; reflexivity.
Defined.

Example unsigned_trigger_scenario :
  Unsigned.triggerScenario stub_created plain_client (JStr "s1") (JStr "c9") []
  = (Normal (JObj [("id", JStr "c1")]),
     [ {| method := "POST";
          url := "https://api.peakmails.com/v1/scenarios/s1/trigger";
          headers := [ ("Authorization", JStr "Bearer k-123");
                       ("Content-Type", JStr "application/json");
                       ("X-Peakmails-Domain", JStr "shop.example") ];
          data := JObj [("contactId", JStr "c9")] |} ]).
Proof. reflexivity. Qed.

(** ** C3: classification of transport failures *)

(** What the [catch] block makes of an error object that is what axios
    documents: an object whose response, when there is one, has a body that
    is neither [null] nor [undefined]. *)
Lemma rethrow_classifies (error : JsVal) :
  Js.nullish error = false ->
  let response := Js.lookup "response" (Js.fields_of error) in
  let body := Js.lookup "data" (Js.fields_of response) in
  (Js.truthy response = true -> Js.nullish body = false) ->
  exists e, rethrow error = Throw e /\
    ((Js.truthy response = true /\
      UpstreamApiError (Js.lookup "status" (Js.fields_of response))
                       (Js.lookup "message" (Js.fields_of body)) e) \/
     (Js.truthy response = false /\
      Js.truthy (Js.lookup "request" (Js.fields_of error)) = true /\
      TransportError e) \/
     (Js.truthy response = false /\
      Js.truthy (Js.lookup "request" (Js.fields_of error)) = false /\
      UnexpectedClientError (Js.lookup "message" (Js.fields_of error)) e)).
Proof.
  intros Herr response body Hbody. subst response body.
  unfold rethrow. rewrite (get_defined _ _ Herr). cbn [bindC].
  destruct (Js.truthy (Js.lookup "response" (Js.fields_of error))) eqn:T.
  - rewrite (get_defined _ _ (truthy_defined _ T)). cbn [bindC].
    rewrite (get_defined _ _ (truthy_defined _ T)). cbn [bindC].
    rewrite (get_defined _ _ (Hbody eq_refl)). cbn [bindC].
    eexists. split; [reflexivity|]. left. split; reflexivity.
  - rewrite (get_defined _ _ Herr). cbn [bindC].
    destruct (Js.truthy (Js.lookup "request" (Js.fields_of error))) eqn:R.
    + eexists. split; [reflexivity|]. right; left. repeat split.
    + rewrite (get_defined _ _ Herr). cbn [bindC].
      eexists. split; [reflexivity|]. right; right. repeat split.
Qed.

Example trigger_scenario_boom :
  fst (Signed.triggerScenario JUndefined stub_boom backend_client
         (JObj [("scenario", JStr "s1"); ("email", JStr "a@b.com")]) [])
  = Throw (Error "Peakmails API Error: 500 - boom").
Proof. reflexivity. Qed.

Example add_contact_unanswered :
  fst (Signed.addContact JUndefined stub_silent backend_client
         (JObj [("email", JStr "a@b.com")]) [])
  = Throw (Error "Peakmails API Error: No response received from the server").
Proof. reflexivity. Qed.

Example add_contact_broken :
  fst (Unsigned.addContact stub_broken plain_client
         (JObj [("email", JStr "a@b.com")]) [])
  = Throw (Error "Peakmails SDK Error: Invalid URL").
Proof. reflexivity. Qed.

(** C3 does not hold of the code.  When the server answers with an error
    status and the JSON body [null], the [catch] block of [request] reads
    [error.response.data.message] off [null]: the operation is rejected with
    the [TypeError] of that read, which is none of the three classified
    errors, although the request had been sent. *)
Theorem C3_null_body_escapes_unclassified :
  rethrow (status_error 500 JNull) = Throw TypeError /\
  Signed.triggerScenario JUndefined stub_null_body backend_client
    (JObj [("scenario", JStr "s1"); ("email", JStr "a@b.com")]) []
  = (Throw TypeError,
     [Signed.envelope backend_client "POST" "/trigger-scenario"
        (JObj [("scenario", JStr "s1"); ("email", JStr "a@b.com")])
        (JStr "backend-implementation")
        (Signed.generateCSRFToken backend_client (JStr "backend-implementation"))]) /\
  Unsigned.triggerScenario stub_null_body plain_client (JStr "s1") (JStr "c9") []
  = (Throw TypeError,
     [Unsigned.envelope plain_client "POST" "/scenarios/s1/trigger"
        (JObj [("contactId", JStr "c9")])]) /\
  (forall status message, ~ UpstreamApiError status message TypeError) /\
  ~ TransportError TypeError /\
  (forall message, ~ UnexpectedClientError message TypeError).
Proof.
  repeat split; try reflexivity; intros; intros H; discriminate H.
Qed.

(** * Further properties of the two clients *)

(** ** What the signed client sends *)

Lemma signed_request_dispatch (window : JsVal)
      (axios : AxiosConfig -> AxiosOutcome) (this : Signed.PeakmailsSDK)
      (method endpoint : string) (data origin : JsVal) (sent : Sent) :
  Signed.resolveOrigin window this = Normal origin ->
  Js.truthy origin = true ->
  Signed.request window axios this method endpoint data sent
  = dispatch axios
      (Signed.envelope this method endpoint (default_data data) origin
         (Signed.generateCSRFToken this origin)) sent.
Proof.
  intros Ho T. unfold Signed.request, bindA, lift. rewrite Ho, T. reflexivity.
Qed.

Lemma nonempty_string_field_object (key : string) (v : JsVal) :
  nonempty_string (Js.lookup key (Js.fields_of v)) = true ->
  Js.nullish v = false /\ default_data v = v.
Proof. destruct v; simpl; try discriminate; auto. Qed.







(** ** Which error is reported *)

(** X4.  The signed client checks the inputs in a fixed order and reports the
    first one that fails: the scenario before the email in
    [triggerScenario], the email before the categories in
    [addContactToCategories]; nothing is sent in any of these cases. *)
Theorem signed_validation_order (window : JsVal)
        (axios : AxiosConfig -> AxiosOutcome) (this : Signed.PeakmailsSDK)
        (arg : JsVal) (sent : Sent) :
  Js.nullish arg = false ->
  let scenario := Js.lookup "scenario" (Js.fields_of arg) in
  let email := Js.lookup "email" (Js.fields_of arg) in
  let categories := Js.lookup "categories" (Js.fields_of arg) in
  (nonempty_string scenario = false ->
   Signed.triggerScenario window axios this arg sent
   = (Throw (Error "Invalid scenario ID"), sent)) /\
  (nonempty_string scenario = true -> nonempty_string email = false ->
   Signed.triggerScenario window axios this arg sent
   = (Throw (Error "Invalid email address"), sent)) /\
  (nonempty_string email = false ->
   Signed.addContactToCategories window axios this arg sent
   = (Throw (Error "Invalid email address"), sent)) /\
  (nonempty_string email = true -> nonempty_list categories = false ->
   Signed.addContactToCategories window axios this arg sent
   = (Throw (Error "Invalid category IDs"), sent)).
Proof.
  intros Hobj scenario email categories. subst scenario email categories.
  unfold Signed.triggerScenario, Signed.addContactToCategories, bindA, lift.
  rewrite !(get_defined _ _ Hobj), !not_a_string_spec, not_a_list_spec.
  split; [|split; [|split]].
  - intros ->. reflexivity.
  - intros -> ->. reflexivity.
  - intros ->. reflexivity.
  - intros -> ->. reflexivity.
Qed.

Lemma signed_validation_order_witness :
  Signed.triggerScenario JUndefined stub_created browser_client
    (JObj [("scenario", JStr ""); ("email", JNum 4)]) []
  = (Throw (Error "Invalid scenario ID"), []) /\
  Signed.addContactToCategories JUndefined stub_created browser_client
    (JObj [("categories", JArr [])]) []
  = (Throw (Error "Invalid email address"), []) /\
  Signed.addContactToCategories JUndefined stub_created browser_client
    (JObj [("email", JStr "a@b.com"); ("categories", JStr "news")]) []
  = (Throw (Error "Invalid category IDs"), []).
Proof.
  split; [|split].
  - apply (signed_validation_order JUndefined stub_created browser_client
             (JObj [("scenario", JStr ""); ("email", JNum 4)]) [] eq_refl).
    reflexivity.
  - apply (signed_validation_order JUndefined stub_created browser_client
             (JObj [("categories", JArr [])]) [] eq_refl).
    reflexivity.
  - apply (signed_validation_order JUndefined stub_created browser_client
             (JObj [("email", JStr "a@b.com"); ("categories", JStr "news")])
             [] eq_refl); reflexivity.
Defined.

(** X5.  The unsigned client names its errors after its own inputs: a bad or
    missing contact id is "Invalid contact ID" where the signed client would
    speak of the email address, the scenario is checked before the contact
    in [triggerScenario] and the contact before the categories in
    [addContactToCategories]; nothing is sent in any of these cases. *)
Theorem unsigned_validation_messages (axios : AxiosConfig -> AxiosOutcome)
        (this : Unsigned.PeakmailsSDK) (first second : JsVal) (sent : Sent) :
  (nonempty_string first = false ->
   Unsigned.addContactToCategories axios this first second sent
   = (Throw (Error "Invalid contact ID"), sent) /\
   Unsigned.triggerScenario axios this first second sent
   = (Throw (Error "Invalid scenario ID"), sent) /\
   Unsigned.getScenarioCustomFields axios this first sent
   = (Throw (Error "Invalid scenario ID"), sent) /\
   Unsigned.getContactDetails axios this first sent
   = (Throw (Error "Invalid contact ID"), sent)) /\
  (nonempty_string first = true -> nonempty_list second = false ->
   Unsigned.addContactToCategories axios this first second sent
   = (Throw (Error "Invalid category IDs"), sent)) /\
  (nonempty_string first = true -> nonempty_string second = false ->
   Unsigned.triggerScenario axios this first second sent
   = (Throw (Error "Invalid contact ID"), sent)) /\
  (Js.nullish first = false ->
   nonempty_string (Js.lookup "email" (Js.fields_of first)) = false ->
   Unsigned.addContact axios this first sent
   = (Throw (Error "Invalid email address"), sent)).
Proof.
  unfold Unsigned.addContactToCategories, Unsigned.triggerScenario,
    Unsigned.getScenarioCustomFields, Unsigned.getContactDetails,
    Unsigned.addContact, bindA, lift.
  rewrite !not_a_string_spec, not_a_list_spec.
  split; [|split; [|split]].
  - intros ->. repeat split.
  - intros -> ->. reflexivity.
  - intros -> ->. reflexivity.
  - intros Hobj Hemail.
    rewrite (get_defined _ _ Hobj), not_a_string_spec, Hemail. reflexivity.
Qed.

Lemma unsigned_validation_messages_witness :
  Unsigned.getContactDetails stub_created plain_client JUndefined []
  = (Throw (Error "Invalid contact ID"), []) /\
  Unsigned.addContactToCategories stub_created plain_client
    (JStr "c9") (JArr []) []
  = (Throw (Error "Invalid category IDs"), []) /\
  Unsigned.triggerScenario stub_created plain_client (JStr "s1") (JNum 9) []
  = (Throw (Error "Invalid contact ID"), []) /\
  Unsigned.addContact stub_created plain_client (JObj [("email", JStr "")]) []
  = (Throw (Error "Invalid email address"), []).
Proof.
  split; [|split; [|split]].
  - apply (unsigned_validation_messages stub_created plain_client
             JUndefined JUndefined []).
    reflexivity.
  - apply (unsigned_validation_messages stub_created plain_client
             (JStr "c9") (JArr []) []); reflexivity.
  - apply (unsigned_validation_messages stub_created plain_client
             (JStr "s1") (JNum 9) []); reflexivity.
  - apply (unsigned_validation_messages stub_created plain_client
             (JObj [("email", JStr "")]) JUndefined []); reflexivity.
Defined.

(** X6.  Both constructors check apiKey, then domain, and the signed one then
    projectId, and report the first field that is not a non-empty string.
    A configuration without a projectId is therefore refused by the signed
    client and accepted by the unsigned one. *)
Theorem constructor_reports_first_invalid_field (options : JsVal) :
  Js.nullish options = false ->
  let field key := Js.lookup key (Js.fields_of options) in
  (nonempty_string (field "apiKey") = false ->
   Signed.constructor options = Throw (Error "Invalid API key") /\
   Unsigned.constructor options = Throw (Error "Invalid API key")) /\
  (nonempty_string (field "apiKey") = true ->
   nonempty_string (field "domain") = false ->
   Signed.constructor options = Throw (Error "Invalid domain") /\
   Unsigned.constructor options = Throw (Error "Invalid domain")) /\
  (nonempty_string (field "apiKey") = true ->
   nonempty_string (field "domain") = true ->
   nonempty_string (field "projectId") = false ->
   Signed.constructor options = Throw (Error "Invalid project ID") /\
   Unsigned.constructor options
   = Normal (Unsigned.mkSDK (field "apiKey") (field "domain")
               "https://api.peakmails.com/v1")).
Proof.
  intros Hobj field. subst field. cbv beta.
  unfold Signed.constructor, Unsigned.constructor.
  rewrite !(get_defined _ _ Hobj). cbn [bindC].
  rewrite !not_a_string_spec.
  split; [|split].
  - intros ->. split; reflexivity.
  - intros -> ->. split; reflexivity.
  - intros -> -> ->. split; reflexivity.
Qed.

Lemma constructor_reports_first_invalid_field_witness :
  (Signed.constructor (JObj [("domain", JNum 1); ("projectId", JStr "")])
   = Throw (Error "Invalid API key") /\
   Unsigned.constructor (JObj [("domain", JNum 1); ("projectId", JStr "")])
   = Throw (Error "Invalid API key")) /\
  (Signed.constructor (JObj [("apiKey", JStr "k-123"); ("domain", JStr "shop.example")])
   = Throw (Error "Invalid project ID") /\
   Unsigned.constructor (JObj [("apiKey", JStr "k-123"); ("domain", JStr "shop.example")])
   = Normal plain_client).
Proof.
  split.
  - apply (constructor_reports_first_invalid_field
             (JObj [("domain", JNum 1); ("projectId", JStr "")]) eq_refl).
    reflexivity.
  - apply (constructor_reports_first_invalid_field
             (JObj [("apiKey", JStr "k-123"); ("domain", JStr "shop.example")])
             eq_refl); reflexivity.
Defined.

(** ** Calls without an object to take apart *)

(** X7.  A constructor called with [null] or [undefined] fails with the
    [TypeError] of the destructuring, not with one of its own errors; called
    with anything that has no properties (a primitive, an array, the empty
    object) it reports the apiKey. *)
Theorem constructor_without_configuration (options : JsVal) :
  (Js.nullish options = true ->
   Signed.constructor options = Throw TypeError /\
   Unsigned.constructor options = Throw TypeError) /\
  (Js.nullish options = false -> Js.fields_of options = [] ->
   Signed.constructor options = Throw (Error "Invalid API key") /\
   Unsigned.constructor options = Throw (Error "Invalid API key")).
Proof.
  unfold Signed.constructor, Unsigned.constructor, Js.get.
  split.
  - intros ->. split; reflexivity.
  - intros -> ->. split; reflexivity.
Qed.

Lemma constructor_without_configuration_witness :
  (Signed.constructor JUndefined = Throw TypeError /\
   Unsigned.constructor JUndefined = Throw TypeError) /\
  (Signed.constructor (JStr "k-123") = Throw (Error "Invalid API key") /\
   Unsigned.constructor (JStr "k-123") = Throw (Error "Invalid API key")).
Proof.
  split.
  - apply (constructor_without_configuration JUndefined). reflexivity.
  - apply (constructor_without_configuration (JStr "k-123")); reflexivity.
Defined.

(** X8.  An operation of the signed client called with [null] or [undefined]
    for its argument is rejected with the [TypeError] of reading or
    destructuring it, and sends nothing; so is [addContact] of the unsigned
    client.  The other operations of the unsigned client take their inputs
    by position, and a call that leaves them out meets their validation. *)
Theorem operation_without_argument :
  (forall (window : JsVal) (axios : AxiosConfig -> AxiosOutcome)
          (this : Signed.PeakmailsSDK) (op : Signed.Operation) (arg : JsVal)
          (sent : Sent),
     Js.nullish arg = true ->
     Signed.invoke window axios this op arg sent = (Throw TypeError, sent)) /\
  (forall (axios : AxiosConfig -> AxiosOutcome)
          (URLSearchParams : JsVal -> Completion string)
          (this : Unsigned.PeakmailsSDK) (args : list JsVal) (sent : Sent),
     Js.nullish (nth 0 args JUndefined) = true ->
     Unsigned.invoke axios URLSearchParams this Unsigned.AddContact args sent
     = (Throw TypeError, sent) /\
     exists e, ValidationError e /\
       Unsigned.invoke axios URLSearchParams this Unsigned.GetContactDetails
                       args sent
       = (Throw e, sent)).
Proof.
  split.
  - intros window axios this op arg sent H.
    now apply signed_invoke_nullish.
  - intros axios URLSearchParams this args sent H. simpl.
    unfold Unsigned.addContact, Unsigned.getContactDetails, bindA, lift, Js.get.
    rewrite H. split; [reflexivity|].
    exists (Error "Invalid contact ID").
    split; [unfold ValidationError; auto|].
    destruct (nth 0 args JUndefined); try discriminate H; reflexivity.
Qed.

Lemma operation_without_argument_witness :
  Signed.invoke JUndefined stub_created backend_client
                Signed.TriggerScenario JUndefined []
  = (Throw TypeError, []) /\
  Unsigned.invoke stub_created sample_query plain_client
                  Unsigned.AddContact [] []
  = (Throw TypeError, []).
Proof.
  split.
  - apply (proj1 operation_without_argument). reflexivity.
  - apply (proj2 operation_without_argument stub_created sample_query
             plain_client [] []). reflexivity.
Defined.

(** ** The origin of a client without a secretKey *)



(** ** What the secretKey is used for *)

Lemma signed_request_backend (window : JsVal)
      (axios : AxiosConfig -> AxiosOutcome) (this : Signed.PeakmailsSDK)
      (method endpoint : string) (data : JsVal) (sent : Sent) :
  Js.truthy (Signed.secretKey this) = true ->
  Signed.request window axios this method endpoint data sent
  = dispatch axios
      (Signed.envelope this method endpoint (default_data data)
         (JStr "backend-implementation")
         (Signed.generateCSRFToken this (JStr "backend-implementation"))) sent.
Proof.
  intros H. apply signed_request_dispatch; [|reflexivity].
  unfold Signed.resolveOrigin. now rewrite H.
Qed.

(** X10.  The secretKey only switches the client to the sentinel origin; its value
    goes nowhere.  Two clients that agree on apiKey, domain, projectId and
    base URL and both have a truthy secretKey behave alike in every
    operation, whatever their secretKeys and their environments are: the
    same result, the same request. *)
Theorem secretKey_value_is_never_used (window1 window2 : JsVal)
        (axios : AxiosConfig -> AxiosOutcome)
        (this1 this2 : Signed.PeakmailsSDK) (op : Signed.Operation)
        (arg : JsVal) (sent : Sent) :
  Signed.apiKey this1 = Signed.apiKey this2 ->
  Signed.domain this1 = Signed.domain this2 ->
  Signed.projectId this1 = Signed.projectId this2 ->
  Signed.baseUrl this1 = Signed.baseUrl this2 ->
  Js.truthy (Signed.secretKey this1) = true ->
  Js.truthy (Signed.secretKey this2) = true ->
  Signed.invoke window1 axios this1 op arg sent
  = Signed.invoke window2 axios this2 op arg sent.
Proof.
  intros Hk Hd Hp Hb H1 H2.
  assert (Hreq : forall method endpoint data,
             Signed.request window1 axios this1 method endpoint data sent
             = Signed.request window2 axios this2 method endpoint data sent).
  { intros method endpoint data.
    rewrite (signed_request_backend _ _ _ _ _ _ _ H1),
      (signed_request_backend _ _ _ _ _ _ _ H2).
    unfold Signed.envelope, Signed.generateCSRFToken.
    now rewrite Hk, Hd, Hp, Hb. }
  destruct (Js.nullish arg) eqn:Hobj.
  - now rewrite !signed_invoke_nullish.
  - destruct op; simpl;
      unfold Signed.addContact, Signed.addContactToCategories,
        Signed.triggerScenario, Signed.getScenarioCustomFields, bindA, lift;
      rewrite ?(get_defined _ _ Hobj);
      repeat match goal with
             | |- context [if ?b then _ else _] => destruct b
             end;
      try reflexivity; apply Hreq.
Qed.

Lemma secretKey_value_is_never_used_witness :
  Signed.invoke JUndefined stub_created backend_client Signed.TriggerScenario
    (JObj [("scenario", JStr "s1"); ("email", JStr "a@b.com")]) []
  = Signed.invoke browser_window stub_created
      (Signed.mkSDK (JStr "k-123") (JStr "shop.example") (JStr "p-7")
                    "https://peakmails.com/api/v1" (JBool true))
      Signed.TriggerScenario
      (JObj [("scenario", JStr "s1"); ("email", JStr "a@b.com")]) [].
Proof.
  apply (secretKey_value_is_never_used JUndefined browser_window stub_created
           backend_client
           (Signed.mkSDK (JStr "k-123") (JStr "shop.example") (JStr "p-7")
                         "https://peakmails.com/api/v1" (JBool true)));
    reflexivity.
Defined.

(** X11.  Every request of one client in one environment carries the same six
    headers, token included, whatever the operation, its argument and the
    transport are: the token does not depend on what is being sent, and a
    later request repeats the token of an earlier one. *)
Theorem signed_headers_repeat (window : JsVal)
        (axios1 axios2 : AxiosConfig -> AxiosOutcome)
        (this : Signed.PeakmailsSDK) (op1 op2 : Signed.Operation)
        (arg1 arg2 : JsVal) (sent1 sent2 : Sent) (config1 config2 : AxiosConfig) :
  snd (Signed.invoke window axios1 this op1 arg1 sent1)
  = (sent1 ++ [config1])%list ->
  snd (Signed.invoke window axios2 this op2 arg2 sent2)
  = (sent2 ++ [config2])%list ->
  headers config1 = headers config2.
Proof.
  intros H1 H2.
  destruct (signed_invoke_outcome window axios1 this op1 arg1 sent1)
    as [(e & He) | (m1 & ep1 & d1 & o1 & Ho1 & _ & Hrun1)].
  { rewrite He in H1. simpl in H1. symmetry in H1.
    now apply sent_grows in H1. }
  destruct (signed_invoke_outcome window axios2 this op2 arg2 sent2)
    as [(e & He) | (m2 & ep2 & d2 & o2 & Ho2 & _ & Hrun2)].
  { rewrite He in H2. simpl in H2. symmetry in H2.
    now apply sent_grows in H2. }
  rewrite Hrun1 in H1. rewrite Hrun2 in H2.
  apply dispatched_config in H1, H2. subst config1 config2.
  assert (o1 = o2) by congruence. subst o2. reflexivity.
Qed.

Lemma signed_headers_repeat_witness :
  headers (Signed.envelope browser_client "POST" "/add-contact"
             (JObj [("email", JStr "a@b.com")]) (JStr "https://app.example")
             (Signed.generateCSRFToken browser_client (JStr "https://app.example")))
  = headers (Signed.envelope browser_client "GET"
               "/get-scenario-custom-fields?scenario=s1" (JObj [])
               (JStr "https://app.example")
               (Signed.generateCSRFToken browser_client (JStr "https://app.example"))).
Proof.
  apply (signed_headers_repeat browser_window stub_created stub_boom
           browser_client Signed.AddContact Signed.GetScenarioCustomFields
           (JObj [("email", JStr "a@b.com")]) (JObj [("scenario", JStr "s1")])
           [] []); reflexivity.
Defined.

(** ** One request, and the fate of its answer *)

Lemma rethrow_never_returns (error : JsVal) :
  exists e, rethrow error = Throw e.
Proof.
  unfold rethrow.
  destruct (Js.nullish error) eqn:E.
  - unfold Js.get. rewrite E. now eexists.
  - rewrite !(get_defined _ _ E). cbn [bindC].
    destruct (Js.truthy (Js.lookup "response" (Js.fields_of error))) eqn:T.
    + rewrite !(get_defined _ _ (truthy_defined _ T)). cbn [bindC].
      unfold Js.get.
      destruct (Js.nullish (Js.lookup "data" _)); now eexists.
    + destruct (Js.truthy (Js.lookup "request" (Js.fields_of error)));
        now eexists.
Qed.

Lemma dispatch_outcome (axios : AxiosConfig -> AxiosOutcome)
      (config : AxiosConfig) (sent : Sent) :
  (exists response, axios config = Resolve response /\
                    fst (dispatch axios config sent)
                    = Normal (response_data response)) \/
  (exists error, axios config = Reject error /\
                 fst (dispatch axios config sent) = rethrow error).
Proof.
  unfold dispatch. simpl.
  destruct (axios config) as [response|error]; [left|right]; eauto.
Qed.

(** A run of any operation of either client is [dispatch] of one envelope
    or ends before the transport. *)
Lemma any_invoke_outcome (axios : AxiosConfig -> AxiosOutcome)
      (run : Async JsVal) :
  (exists window this op arg, run = Signed.invoke window axios this op arg) \/
  (exists URLSearchParams this op args,
      run = Unsigned.invoke axios URLSearchParams this op args) ->
  forall sent,
    (exists e, run sent = (Throw e, sent)) \/
    (exists config, run sent = dispatch axios config sent).
Proof.
  intros [(window & this & op & arg & ->) | (q & this & op & args & ->)] sent.
  - destruct (signed_invoke_outcome window axios this op arg sent)
      as [(e & He) | (m & ep & d & o & _ & _ & Hrun)]; eauto.
  - destruct (unsigned_invoke_outcome axios q this op args sent)
      as [(e & He) | (m & ep & d & Hrun)]; eauto.
Qed.

(** X12.  A call of any operation of either client adds at most one request to
    those already sent and never touches the earlier ones.  It resolves only
    when that one request was answered with a response, and then with the
    body of the response; when the transport rejects the request the call is
    rejected as well, with no second attempt and no value made up in place
    of an answer. *)
Theorem one_request_no_retry (axios : AxiosConfig -> AxiosOutcome)
        (run : Async JsVal) (sent : Sent) :
  (exists window this op arg, run = Signed.invoke window axios this op arg) \/
  (exists URLSearchParams this op args,
      run = Unsigned.invoke axios URLSearchParams this op args) ->
  (snd (run sent) = sent \/
   exists config, snd (run sent) = (sent ++ [config])%list) /\
  (forall v, fst (run sent) = Normal v ->
     exists config response,
       snd (run sent) = (sent ++ [config])%list /\
       axios config = Resolve response /\ response_data response = v) /\
  (forall config error,
     snd (run sent) = (sent ++ [config])%list ->
     axios config = Reject error ->
     exists e, fst (run sent) = Throw e).
Proof.
  intros Hrun.
  destruct (any_invoke_outcome axios run Hrun sent)
    as [(e & He) | (config & Hd)].
  - rewrite He. simpl. split; [auto|]. split.
    + discriminate.
    + intros config error Hsent. symmetry in Hsent.
      now apply sent_grows in Hsent.
  - rewrite Hd. split; [right; now exists config|]. split.
    + intros v Hv.
      destruct (dispatch_outcome axios config sent)
        as [(response & Hres & Hfst) | (error & Hrej & Hfst)].
      * exists config, response. rewrite Hfst in Hv. inversion Hv.
        repeat split; auto.
      * rewrite Hfst in Hv.
        destruct (rethrow_never_returns error) as (e & He).
        rewrite He in Hv. discriminate.
    + intros config' error Hsent Hrej.
      apply dispatched_config in Hsent. subst config'.
      destruct (dispatch_outcome axios config sent)
        as [(response & Hres & _) | (error' & Hrej' & Hfst)]; [congruence|].
      rewrite Hfst. apply rethrow_never_returns.
Qed.

Lemma one_request_no_retry_witness :
  (exists config response,
     snd (Unsigned.invoke stub_created sample_query plain_client
            Unsigned.GetContactDetails [JStr "c9"] [])
     = ([] ++ [config])%list /\
     stub_created config = Resolve response /\
     response_data response = JObj [("id", JStr "c1")]) /\
  (exists e,
     fst (Signed.invoke JUndefined stub_silent backend_client Signed.AddContact
            (JObj [("email", JStr "a@b.com")]) [])
     = Throw e).
Proof.
  split.
  - apply (one_request_no_retry stub_created
             (Unsigned.invoke stub_created sample_query plain_client
                Unsigned.GetContactDetails [JStr "c9"]) []).
    + right. now eexists _, _, _, _.
    + reflexivity.
  - apply (one_request_no_retry stub_silent
             (Signed.invoke JUndefined stub_silent backend_client
                Signed.AddContact (JObj [("email", JStr "a@b.com")])) [])
      with (config := Signed.envelope backend_client "POST" "/add-contact"
                        (JObj [("email", JStr "a@b.com")])
                        (JStr "backend-implementation")
                        (Signed.generateCSRFToken backend_client
                           (JStr "backend-implementation")))
           (error := JObj [("message", JStr "Network Error");
                           ("request", JObj [])]).
    + left. now eexists _, _, _, _.
    + reflexivity.
    + reflexivity.
Defined.

(** ** How a failure of the transport is worded *)



(** ** Where the requests go *)

Lemma prefix_append (base rest rest' : string) :
  String.prefix rest rest' = true ->
  String.prefix (base ++ rest) (base ++ rest') = true.
Proof.
  intros H. induction base as [|ch base IH]; simpl; [exact H|].
  destruct (ascii_dec ch ch); [exact IH | contradiction].
Qed.

Lemma signed_invoke_route (window : JsVal) (axios : AxiosConfig -> AxiosOutcome)
      (this : Signed.PeakmailsSDK) (op : Signed.Operation) (arg : JsVal)
      (sent : Sent) :
  (exists e, Signed.invoke window axios this op arg sent = (Throw e, sent)) \/
  (exists endpoint data,
     String.prefix "/" endpoint = true /\
     Signed.invoke window axios this op arg sent
     = Signed.request window axios this
         match op with
         | Signed.GetScenarioCustomFields => "GET"
         | _ => "POST"
         end endpoint data sent).
Proof.
  destruct (Js.nullish arg) eqn:Hobj.
  - left. exists TypeError. now apply signed_invoke_nullish.
  - destruct op; simpl;
      unfold Signed.addContact, Signed.addContactToCategories,
        Signed.triggerScenario, Signed.getScenarioCustomFields, bindA, lift,
        throw, lift;
      rewrite ?(get_defined _ _ Hobj);
      repeat match goal with
             | |- context [if ?b then _ else _] => destruct b
             end;
      try (left; eexists; reflexivity);
      right; eexists _, _; (split; [|reflexivity]); reflexivity.
Qed.

Lemma unsigned_invoke_route (axios : AxiosConfig -> AxiosOutcome)
      (URLSearchParams : JsVal -> Completion string)
      (this : Unsigned.PeakmailsSDK) (op : Unsigned.Operation)
      (args : list JsVal) (sent : Sent) :
  (exists e, Unsigned.invoke axios URLSearchParams this op args sent
             = (Throw e, sent)) \/
  (exists endpoint data,
     String.prefix "/" endpoint = true /\
     Unsigned.invoke axios URLSearchParams this op args sent
     = Unsigned.request axios this
         match op with
         | Unsigned.AddContact | Unsigned.AddContactToCategories
         | Unsigned.TriggerScenario => "POST"
         | _ => "GET"
         end endpoint data sent).
Proof.
  destruct op; simpl;
    unfold Unsigned.addContact, Unsigned.addContactToCategories,
      Unsigned.triggerScenario, Unsigned.getScenarios,
      Unsigned.getScenarioCustomFields, Unsigned.getCategories,
      Unsigned.getContactDetails, Unsigned.with_query, bindA, lift, throw, lift;
    repeat match goal with
           | |- context [Js.get ?v ?k] => destruct (Js.get v k)
           | |- context [URLSearchParams ?v] => destruct (URLSearchParams v)
           | |- context [if ?b then _ else _] => destruct b
           end;
    try (left; eexists; reflexivity);
    right; eexists _, _; (split; [|reflexivity]); reflexivity.
Qed.

(** X14.  Every request of a client built by a constructor goes to the one fixed
    base URL of its variant, followed by a path: no argument of an operation
    can redirect it to another host.  The method is GET for the reading
    operations and POST for the others; no other method is used. *)
Theorem requests_stay_on_the_base_url :
  (forall (window : JsVal) (axios : AxiosConfig -> AxiosOutcome)
          (options : JsVal) (this : Signed.PeakmailsSDK)
          (op : Signed.Operation) (arg : JsVal) (sent : Sent)
          (config : AxiosConfig),
     Signed.constructor options = Normal this ->
     snd (Signed.invoke window axios this op arg sent) = (sent ++ [config])%list ->
     String.prefix "https://peakmails.com/api/v1/" (url config) = true /\
     method config = match op with
                     | Signed.GetScenarioCustomFields => "GET"
                     | _ => "POST"
                     end) /\
  (forall (axios : AxiosConfig -> AxiosOutcome)
          (URLSearchParams : JsVal -> Completion string)
          (options : JsVal) (this : Unsigned.PeakmailsSDK)
          (op : Unsigned.Operation) (args : list JsVal) (sent : Sent)
          (config : AxiosConfig),
     Unsigned.constructor options = Normal this ->
     snd (Unsigned.invoke axios URLSearchParams this op args sent)
     = (sent ++ [config])%list ->
     String.prefix "https://api.peakmails.com/v1/" (url config) = true /\
     method config = match op with
                     | Unsigned.AddContact | Unsigned.AddContactToCategories
                     | Unsigned.TriggerScenario => "POST"
                     | _ => "GET"
                     end).
Proof.
  split.
  - intros window axios options this op arg sent config Hnew Hsent.
    destruct (signed_constructed options this Hnew)
      as (a & d & p & _ & _ & _ & _ & _ & _ & ->).
    destruct (signed_invoke_route window axios
                (Signed.mkSDK (JStr a) (JStr d) (JStr p)
                   "https://peakmails.com/api/v1"
                   (Js.lookup "secretKey" (Js.fields_of options)))
                op arg sent)
      as [(e & He) | (endpoint & data & Hpath & Hrun)].
    + rewrite He in Hsent. simpl in Hsent. symmetry in Hsent.
      now apply sent_grows in Hsent.
    + rewrite Hrun in Hsent.
      match type of Hsent with
      | snd (Signed.request ?w ?ax ?t ?m ?ep ?dt ?s) = _ =>
          destruct (signed_request_cases w ax t m ep dt s)
            as [(e & _ & He) | [(o & _ & _ & He) | (o & _ & _ & Hd)]]
      end.
      * rewrite He in Hsent. simpl in Hsent. symmetry in Hsent.
        now apply sent_grows in Hsent.
      * rewrite He in Hsent. simpl in Hsent. symmetry in Hsent.
        now apply sent_grows in Hsent.
      * rewrite Hd in Hsent. apply dispatched_config in Hsent. subst config.
        split; [|reflexivity].
        apply (prefix_append "https://peakmails.com/api/v1" "/" endpoint Hpath).
  - intros axios URLSearchParams options this op args sent config Hnew Hsent.
    assert (Hbase : Unsigned.baseUrl this = "https://api.peakmails.com/v1").
    { revert Hnew. unfold Unsigned.constructor.
      destruct (Js.get options "apiKey") as [a|]; [|discriminate].
      destruct (Js.get options "domain") as [d|]; [|discriminate].
      cbn [bindC].
      destruct (not_a_string a); [discriminate|].
      destruct (not_a_string d); [discriminate|].
      intros H. inversion H. reflexivity. }
    destruct (unsigned_invoke_route axios URLSearchParams this op args sent)
      as [(e & He) | (endpoint & data & Hpath & Hrun)].
    + rewrite He in Hsent. simpl in Hsent. symmetry in Hsent.
      now apply sent_grows in Hsent.
    + rewrite Hrun in Hsent. unfold Unsigned.request in Hsent.
      apply dispatched_config in Hsent. subst config.
      split; [|reflexivity].
      cbn [url Unsigned.envelope]. rewrite Hbase.
      apply (prefix_append "https://api.peakmails.com/v1" "/" endpoint Hpath).
Qed.

Lemma requests_stay_on_the_base_url_witness :
  (String.prefix "https://peakmails.com/api/v1/"
     (url (Signed.envelope backend_client "GET"
             "/get-scenario-custom-fields?scenario=@evil.example/x" (JObj [])
             (JStr "backend-implementation")
             (Signed.generateCSRFToken backend_client
                (JStr "backend-implementation")))) = true /\
   method (Signed.envelope backend_client "GET"
             "/get-scenario-custom-fields?scenario=@evil.example/x" (JObj [])
             (JStr "backend-implementation")
             (Signed.generateCSRFToken backend_client
                (JStr "backend-implementation"))) = "GET") /\
  (String.prefix "https://api.peakmails.com/v1/"
     (url (Unsigned.envelope plain_client "POST"
             "/scenarios/../admin/trigger" (JObj [("contactId", JStr "c9")])))
   = true /\
   method (Unsigned.envelope plain_client "POST"
             "/scenarios/../admin/trigger" (JObj [("contactId", JStr "c9")]))
   = "POST").
Proof.
  split.
  - apply (proj1 requests_stay_on_the_base_url JUndefined stub_created
             backend_options backend_client Signed.GetScenarioCustomFields
             (JObj [("scenario", JStr "@evil.example/x")]) []);
      reflexivity.
  - apply (proj2 requests_stay_on_the_base_url stub_created sample_query
             browser_options plain_client Unsigned.TriggerScenario
             [JStr "../admin"; JStr "c9"] []);
      reflexivity.
Defined.

(** ** The routes of the unsigned client *)

Lemma nonempty_string_is_string (v : JsVal) :
  nonempty_string v = true -> v = JStr (Js.toString v).
Proof. destruct v; simpl; try discriminate; reflexivity. Qed.

(** X15.  Given valid inputs, the five validating operations of the unsigned
    client send, with no further condition: [addContact] the argument
    itself to POST /contacts; [addContactToCategories] the payload
    [{categoryIds}] to POST /contacts/id/categories; [triggerScenario] the
    payload [{contactId}] to POST /scenarios/id/trigger;
    [getScenarioCustomFields] and [getContactDetails] an empty payload to
    GET /scenarios/id/custom-fields and GET /contacts/id.  The ids are put
    into the path as they are. *)
Theorem unsigned_routes (axios : AxiosConfig -> AxiosOutcome)
        (this : Unsigned.PeakmailsSDK) (first second : JsVal) (sent : Sent) :
  (nonempty_string (Js.lookup "email" (Js.fields_of first)) = true ->
   Unsigned.addContact axios this first sent
   = dispatch axios (Unsigned.envelope this "POST" "/contacts" first) sent) /\
  (nonempty_string first = true ->
   (nonempty_list second = true ->
    Unsigned.addContactToCategories axios this first second sent
    = dispatch axios
        (Unsigned.envelope this "POST"
           ("/contacts/" ++ Js.toString first ++ "/categories")
           (JObj [("categoryIds", second)])) sent) /\
   (nonempty_string second = true ->
    Unsigned.triggerScenario axios this first second sent
    = dispatch axios
        (Unsigned.envelope this "POST"
           ("/scenarios/" ++ Js.toString first ++ "/trigger")
           (JObj [("contactId", second)])) sent) /\
   Unsigned.getScenarioCustomFields axios this first sent
   = dispatch axios
       (Unsigned.envelope this "GET"
          ("/scenarios/" ++ Js.toString first ++ "/custom-fields")
          (JObj [])) sent /\
   Unsigned.getContactDetails axios this first sent
   = dispatch axios
       (Unsigned.envelope this "GET" ("/contacts/" ++ Js.toString first)
          (JObj [])) sent).
Proof.
  unfold Unsigned.addContact, Unsigned.addContactToCategories,
    Unsigned.triggerScenario, Unsigned.getScenarioCustomFields,
    Unsigned.getContactDetails, Unsigned.request, bindA, lift.
  rewrite !not_a_string_spec, not_a_list_spec.
  split.
  - intros Hemail.
    destruct (nonempty_string_field_object _ _ Hemail) as [Hobj Hdata].
    now rewrite (get_defined _ _ Hobj), not_a_string_spec, Hemail, Hdata.
  - intros ->. cbn [negb]. repeat split.
    + intros ->. reflexivity.
    + intros ->. reflexivity.
Qed.

Lemma unsigned_routes_witness :
  map (fun config => (method config, url config, data config))
      (snd (Unsigned.addContactToCategories stub_created plain_client
              (JStr "c9") (JArr [JStr "news"; JStr "vip"]) []))
  = [("POST", "https://api.peakmails.com/v1/contacts/c9/categories",
      JObj [("categoryIds", JArr [JStr "news"; JStr "vip"])])] /\
  map (fun config => (method config, url config, data config))
      (snd (Unsigned.getContactDetails stub_created plain_client
              (JStr "c 9?x") []))
  = [("GET", "https://api.peakmails.com/v1/contacts/c 9?x", JObj [])].
Proof.
  split.
  - rewrite (proj1 (proj2 (unsigned_routes stub_created plain_client
                             (JStr "c9") (JArr [JStr "news"; JStr "vip"]) [])
                      eq_refl) eq_refl).
    reflexivity.
  - rewrite (proj2 (proj2 (proj2 (proj2 (unsigned_routes stub_created
                plain_client (JStr "c 9?x") JUndefined [])
              eq_refl)))).
    reflexivity.
Defined.

(** X16.  The two listing operations of the unsigned client validate nothing.
    With no options they behave as with the empty object; the query string
    that the platform builds from the options is appended behind a question
    mark, and an empty one leaves the bare path; when the platform refuses
    the options, the operation is rejected with that error and nothing is
    sent. *)
Theorem unsigned_listing (axios : AxiosConfig -> AxiosOutcome)
        (URLSearchParams : JsVal -> Completion string)
        (this : Unsigned.PeakmailsSDK) (options : JsVal) (sent : Sent) :
  (options = JUndefined ->
   Unsigned.getScenarios axios URLSearchParams this options sent
   = Unsigned.getScenarios axios URLSearchParams this (JObj []) sent /\
   Unsigned.getCategories axios URLSearchParams this options sent
   = Unsigned.getCategories axios URLSearchParams this (JObj []) sent) /\
  (URLSearchParams (default_data options) = Normal "" ->
   Unsigned.getScenarios axios URLSearchParams this options sent
   = dispatch axios (Unsigned.envelope this "GET" "/scenarios" (JObj [])) sent /\
   Unsigned.getCategories axios URLSearchParams this options sent
   = dispatch axios (Unsigned.envelope this "GET" "/categories" (JObj [])) sent) /\
  (forall query,
     URLSearchParams (default_data options) = Normal query -> query <> "" ->
     Unsigned.getScenarios axios URLSearchParams this options sent
     = dispatch axios
         (Unsigned.envelope this "GET" ("/scenarios?" ++ query) (JObj [])) sent /\
     Unsigned.getCategories axios URLSearchParams this options sent
     = dispatch axios
         (Unsigned.envelope this "GET" ("/categories?" ++ query) (JObj [])) sent) /\
  (forall e,
     URLSearchParams (default_data options) = Throw e ->
     Unsigned.getScenarios axios URLSearchParams this options sent
     = (Throw e, sent) /\
     Unsigned.getCategories axios URLSearchParams this options sent
     = (Throw e, sent)).
Proof.
  unfold Unsigned.getScenarios, Unsigned.getCategories, Unsigned.request,
    Unsigned.with_query, bindA, lift.
  split; [|split; [|split]].
  - intros ->. split; reflexivity.
  - intros ->. split; reflexivity.
  - intros query -> Hne.
    destruct (String.eqb_spec query ""); [contradiction|].
    split; reflexivity.
  - intros e ->. split; reflexivity.
Qed.

Lemma unsigned_listing_witness :
  map url (snd (Unsigned.getScenarios stub_created sample_query plain_client
                  JUndefined []))
  = ["https://api.peakmails.com/v1/scenarios"] /\
  map url (snd (Unsigned.getCategories stub_created sample_query plain_client
                  (JObj [("page", JNum 2)]) []))
  = ["https://api.peakmails.com/v1/categories?page=2"] /\
  Unsigned.getScenarios stub_created failing_query plain_client
    (JArr [JNum 1]) []
  = (Throw TypeError, []).
Proof.
  split; [|split].
  - rewrite (proj1 (proj1 (proj2 (unsigned_listing stub_created sample_query
                                   plain_client JUndefined [])) eq_refl)).
    reflexivity.
  - destruct (unsigned_listing stub_created sample_query plain_client
                (JObj [("page", JNum 2)]) []) as (_ & _ & Hquery & _).
    destruct (Hquery "page=2" eq_refl) as [_ Hcategories]; [discriminate|].
    rewrite Hcategories. reflexivity.
  - apply (unsigned_listing stub_created failing_query plain_client
             (JArr [JNum 1]) []).
    reflexivity.
Defined.
